(** * AWC badge rotator: the catalog and the slot selector

    A shallow embedding of the three variants of the badge server
    ([src/main.go], first and second program, and the serverless variant
    in [src/unnamed/part_000]) together with the properties of the
    specification that concern discovery, refresh, slot normalisation,
    the seeded shuffle and the choice of the served file. *)

From Stdlib Require Import ZArith String Ascii List Lia Bool.
From stdpp Require Import base option list sorting strings.

Open Scope Z_scope.
Open Scope string_scope.

(** ** Go runtime and standard library, as far as the program uses them *)

Module Go.

(** [int] and [int64] are 64-bit two's-complement integers. *)
Definition maxInt : Z := 2 ^ 63 - 1.
Definition minInt : Z := - 2 ^ 63.

Definition wrap (z : Z) : Z := (z + 2 ^ 63) mod 2 ^ 64 - 2 ^ 63.

(** [a - b] on [int]. *)
Definition sub (a b : Z) : Z := wrap (a - b).

(** [a % b] for [b <> 0]: the remainder has the sign of [a]. *)
Definition rem (a b : Z) : Z := Z.rem a b.

(** [a / b] for [b <> 0]: the quotient is truncated toward zero. *)
Definition quo (a b : Z) : Z := wrap (Z.quot a b).

(** [a[i]] on a slice: [None] stands for the runtime panic
    "index out of range". *)
Definition index {A} (a : list A) (i : Z) : option A :=
  if decide (0 <= i) then a !! Z.to_nat i else None.

(** [len(a)] as an [int]. *)
Definition len {A} (a : list A) : Z := Z.of_nat (length a).

(** *** strconv.Atoi

    [Atoi s] is [ParseInt(s, 10, 0)]: an optional sign, then at least one
    decimal digit and nothing else; the value has to fit [int].  [None]
    stands for a non-nil error (syntax or range). *)

Definition digit (c : ascii) : option Z :=
  let n := Z.of_N (N_of_ascii c) in
  if decide (48 <= n <= 57) then Some (n - 48) else None.

Fixpoint digits (acc : Z) (s : string) : option Z :=
  match s with
  | EmptyString => Some acc
  | String c s' =>
      match digit c with
      | Some d => digits (acc * 10 + d) s'
      | None => None
      end
  end.

Definition unsigned (s : string) : option Z :=
  match s with
  | EmptyString => None
  | _ => digits 0 s
  end.

Definition inRange (v : Z) : option Z :=
  if decide (minInt <= v <= maxInt) then Some v else None.

Definition Atoi (s : string) : option Z :=
  match s with
  | EmptyString => None
  | String c s' =>
      if decide (c = "-"%char) then n ← unsigned s'; inRange (- n)
      else if decide (c = "+"%char) then n ← unsigned s'; inRange n
      else n ← unsigned s; inRange n
  end.

(** *** strings.HasSuffix *)

Definition HasSuffix (s suffix : string) : bool :=
  (String.length suffix <=? String.length s)%nat
  && String.eqb
       (String.substring (String.length s - String.length suffix)
                         (String.length suffix) s)
       suffix.

(** *** filepath.Join

    [Join dir name] for a clean relative directory, possibly written with
    a leading "./", and a base name: [Clean] drops the "./". *)
Definition Join (dir name : string) : string :=
  (if String.prefix "./" dir
   then String.substring 2 (String.length dir - 2) dir
   else dir) ++ "/" ++ name.

(** *** sort.Strings

    Strings are compared byte by byte.  The order is total and
    antisymmetric, so the sorted result does not depend on the sorting
    algorithm; merge sort stands for the library's. *)
Definition le (a b : string) : Prop := String.leb a b = true.

#[global] Instance le_dec a b : Decision (le a b).
Proof. unfold le. apply _. Defined.

#[global] Instance le_total : Total le.
Proof. intros a b. apply String.leb_total. Qed.

#[global] Instance le_antisym : AntiSymm (=) le.
Proof. intros a b. apply String.leb_antisym. Qed.

Definition sortStrings (l : list string) : list string := merge_sort le l.

(** *** time

    Instants and durations are counted in nanoseconds.  A [Duration] is an
    [int64]: [Since] saturates at its bounds. *)
Definition Minute : Z := 60 * 1000000000.

Definition Since (now t : Z) : Z :=
  let d := now - t in
  if decide (maxInt < d) then maxInt
  else if decide (d < minInt) then minInt
  else d.

(** *** filepath.WalkDir

    What the walk finds under its root: entries that are not directories,
    and directories with the entries [os.ReadDir] returns, in its order,
    and possibly its error.  [LstatFails] is a root that cannot be
    examined. *)
Inductive error := ErrNotExist | ErrPermission | ErrIO (msg : string).

#[local] Unset Elimination Schemes.
Inductive Node :=
| File (name : string)
| Dir (name : string) (readErr : option error) (entries : list Node).

#[local] Set Elimination Schemes.

Inductive Tree := LstatFails (e : error) | Root (n : Node).

Definition nodeName (n : Node) : string :=
  match n with File name => name | Dir name _ _ => name end.

(** The arguments [d] and [err] of a [fs.WalkDirFunc]: an entry with a nil
    error, or a non-nil error (it is the only case in which [d] may be
    nil). *)
Inductive Visit :=
| Entry (name : string) (isDir : bool)
| Failure (e : error).

Section Walk.
Context {S : Type}.
Variable fn : string -> Visit -> S -> S * option error.

(** The error is one of the operating system, never [SkipDir] or
    [SkipAll]: the walk stops at the first error [fn] returns. *)
Fixpoint walkDir (path : string) (d : Node) (s : S) : S * option error :=
  match d with
  | File name => fn path (Entry name false) s
  | Dir name readErr entries =>
      let '(s, err) := fn path (Entry name true) s in
      match err with
      | Some e => (s, Some e)
      | None =>
          let '(s, err) :=
            match readErr with
            | Some e => fn path (Failure e) s
            | None => (s, None)
            end in
          match err with
          | Some e => (s, Some e)
          | None =>
              (fix walkEntries (dirs : list Node) (s : S) : S * option error :=
                 match dirs with
                 | [] => (s, None)
                 | d1 :: dirs' =>
                     let '(s, err) := walkDir (Join path (nodeName d1)) d1 s in
                     match err with
                     | Some e => (s, Some e)
                     | None => walkEntries dirs' s
                     end
                 end) entries s
          end
      end
  end.

Definition WalkDir (root : string) (t : Tree) (s : S) : S * option error :=
  match t with
  | LstatFails e => fn root (Failure e) s
  | Root d => walkDir root d s
  end.
End Walk.

(** *** net/http

    A reply is an error written with [http.Error], the bytes of a file, a
    text, or nothing at all when the handler panics. *)
Inductive Response :=
| HttpError (status : Z) (msg : string)
| FileBytes (header : list (string * string)) (path : string)
| Text (body : string)
| Aborted.

(** [http.ServeFile]: a file that cannot be opened is answered with the
    library's own error page. *)
Definition ServeFile (stat : string -> option error)
                     (header : list (string * string)) (path : string)
  : Response :=
  match stat path with
  | None => FileBytes header path
  | Some ErrNotExist => HttpError 404 "404 page not found"
  | Some ErrPermission => HttpError 403 "403 Forbidden"
  | Some (ErrIO _) => HttpError 500 "500 Internal Server Error"
  end.

End Go.

(** ** The program's data *)

(** The three variants of the program.  [MainA] is the first program of
    [main.go], [MainB] the second one (it caps the slot at [numBadgeSlots]),
    [Vercel] the serverless variant with the entry point [Handler]. *)
Inductive Variant := MainA | MainB | Vercel.

Definition badgesDir : string := "./badges".
Definition discoveryInterval : Z := 5 * Go.Minute.
Definition numBadgeSlots : Z := 3.
Definition timeWindowSeconds : Z := 2.

(** The lines written with the [log] package, without their wording. *)
Inductive LogMsg :=
| LogDiscovering
| LogVercelEnv
| LogErrAccess (path : string) (e : Go.error)
| LogErrWalk (e : Go.error)
| LogDiscovered (names : list string)
| LogNoneFound
| LogNoBadges
| LogCopyEmpty
| LogInvalidSlot (slotStr : string)
| LogEmptyIndices
| LogFallbackWarning
| LogSelectError
| LogServing (slot seed : Z) (path : string)
| LogFileNotFound (path : string).

(** The package-level variables [badgeFilesList] and [lastDiscoveryTime],
    and what has been logged so far. *)
Record State := mkState {
  badgeFilesList : list string;
  lastDiscoveryTime : Z;
  logged : list LogMsg
}.

Definition say (m : LogMsg) (st : State) : State :=
  mkState (badgeFilesList st) (lastDiscoveryTime st) (logged st ++ [m]).

Definition setBadgeFilesList (l : list string) (st : State) : State :=
  mkState l (lastDiscoveryTime st) (logged st).

Definition setLastDiscoveryTime (t : Z) (st : State) : State :=
  mkState (badgeFilesList st) t (logged st).

(** What the selection part of a badge handler arrives at. *)
Inductive Outcome :=
| NoBadges                      (* 404 "No badges available" *)
| NoBadgesAfterCopy             (* 404 "No badges available after copy" *)
| EmptyIndices                  (* 500 "Error selecting badge (empty internal list)" *)
| Chosen (file : string)        (* the guarded branch *)
| ChosenFirst (file : string)   (* the fallback branch, with its warning *)
| SelectionError                (* 500 "Error selecting badge" *)
| Panicked.                     (* a runtime panic *)

(** [tempIndices[i] = i] for every [i]. *)
Definition identityIndices (n : nat) : list Z := map Z.of_nat (seq 0 n).

(** [a[i], a[j] = a[j], a[i]] *)
Definition swap (a : list Z) (i j : Z) : option (list Z) :=
  x ← Go.index a i;
  y ← Go.index a j;
  Some (<[Z.to_nat j := x]> (<[Z.to_nat i := y]> a)).

Section Program.

(** [strings.ToLower], which maps Unicode letters to lower case. *)
Variable ToLower : string -> string.

(** [math/rand]: a generator [rand.New(rand.NewSource(seed))] and its two
    bounded draws, each returning the number drawn and the generator
    afterwards. *)
Variable Rand : Type.
Variable NewRand : Z -> Rand.
Variable int31n : Rand -> Z -> Z * Rand.
Variable Int63n : Rand -> Z -> Z * Rand.

(** Both draw from the half-open interval [[0, n)]. *)
Definition DrawsInRange : Prop :=
  (forall r n, 0 < n -> 0 <= (int31n r n).1 < n) /\
  (forall r n, 0 < n -> 0 <= (Int63n r n).1 < n).

(** *** rand.Shuffle

    The Fisher-Yates loops of the method [Shuffle] of [Rand]: [i] runs from
    [n - 1] down to [1]; [Int63n] is used while [i > 1<<31 - 1 - 1],
    [int31n] below. *)
Definition draw (r : Rand) (i : Z) : Z * Rand :=
  if decide (2 ^ 31 - 1 - 1 < i) then Int63n r (i + 1) else int31n r (i + 1).

Fixpoint shuffleFrom (i : nat) (r : Rand) (a : list Z) : option (list Z) :=
  match i with
  | O => Some a
  | S i' =>
      let '(j, r') := draw r (Z.of_nat i) in
      a' ← swap a (Z.of_nat i) j;
      shuffleFrom i' r' a'
  end.

Definition Shuffle (r : Rand) (a : list Z) : option (list Z) :=
  shuffleFrom (length a - 1) r a.

(** *** Slot normalisation

    [parsed] is the result of [strconv.Atoi] on the query parameter. *)
Definition slotRejected (v : Variant) (parsed : option Z) : bool :=
  match parsed with
  | None => true
  | Some slot =>
      match v with
      | MainA | Vercel => bool_decide (slot < 1)
      | MainB => bool_decide (slot < 1) || bool_decide (slot > numBadgeSlots)
      end
  end.

Definition normalizeSlot (v : Variant) (parsed : option Z) : Z :=
  if slotRejected v parsed then 1 else default 1 parsed.

(** [r.URL.Query().Get("slot")]: the empty string when the parameter is
    absent. *)
Definition getSlot (query : option string) : string := default "" query.

Definition requestedSlot (v : Variant) (query : option string) : Z :=
  normalizeSlot v (Go.Atoi (getSlot query)).

(** *** Selection *)

(** [selectedFilename = badges[tempIndices[effectiveSlotIndex]]] *)
Definition pickAt (badges : list string) (tempIndices : list Z)
                  (effectiveSlotIndex : Z) : Outcome :=
  match Go.index tempIndices effectiveSlotIndex with
  | None => Panicked
  | Some k =>
      match Go.index badges k with
      | None => Panicked
      | Some file => Chosen file
      end
  end.

(** The [else] branch of the guard. *)
Definition fallback (badges : list string) : Outcome :=
  if decide (Go.len badges > 0)
  then match Go.index badges 0 with
       | Some file => ChosenFirst file
       | None => Panicked
       end
  else SelectionError.

(** [badgeHandler] of the first program of [main.go], from the check of
    [badgeFilesList] to the choice of [selectedFilename]. *)
Definition selectBadgeA (badgeFilesList : list string) (baseSeed slot : Z)
  : Outcome :=
  if decide (Go.len badgeFilesList = 0) then NoBadges else
  let currentAvailableBadges := badgeFilesList in
  if decide (Go.len currentAvailableBadges = 0) then NoBadgesAfterCopy else
  match Shuffle (NewRand baseSeed)
                (identityIndices (length currentAvailableBadges)) with
  | None => Panicked
  | Some tempIndices =>
      if decide (Go.len tempIndices = 0) then Panicked (* division by zero *)
      else
        let effectiveSlotIndex := Go.rem (Go.sub slot 1) (Go.len tempIndices) in
        if decide (effectiveSlotIndex < Go.len tempIndices)
        then pickAt currentAvailableBadges tempIndices effectiveSlotIndex
        else fallback currentAvailableBadges
  end.

(** [badgeHandler] of the second program of [main.go]: no check of the
    copy. *)
Definition selectBadgeB (badgeFilesList : list string) (baseSeed slot : Z)
  : Outcome :=
  if decide (Go.len badgeFilesList = 0) then NoBadges else
  let currentAvailableBadges := badgeFilesList in
  match Shuffle (NewRand baseSeed)
                (identityIndices (length currentAvailableBadges)) with
  | None => Panicked
  | Some tempIndices =>
      if decide (Go.len tempIndices = 0) then Panicked (* division by zero *)
      else
        let effectiveSlotIndex := Go.rem (Go.sub slot 1) (Go.len tempIndices) in
        if decide (effectiveSlotIndex < Go.len tempIndices)
        then pickAt currentAvailableBadges tempIndices effectiveSlotIndex
        else fallback currentAvailableBadges
  end.

(** [badgeHandlerInternal] of the serverless variant: the remainder is
    taken only when [tempIndices] is not empty. *)
Definition selectBadgeInternal (badgeFilesList : list string)
                               (baseSeed slot : Z) : Outcome :=
  if decide (Go.len badgeFilesList = 0) then NoBadges else
  let localBadgeFilesList := badgeFilesList in
  if decide (Go.len localBadgeFilesList = 0) then NoBadgesAfterCopy else
  match Shuffle (NewRand baseSeed)
                (identityIndices (length localBadgeFilesList)) with
  | None => Panicked
  | Some tempIndices =>
      let effectiveSlotIndex := Go.sub slot 1 in
      if decide (Go.len tempIndices > 0) then
        let effectiveSlotIndex := Go.rem effectiveSlotIndex (Go.len tempIndices) in
        if decide (effectiveSlotIndex < Go.len tempIndices)
        then pickAt localBadgeFilesList tempIndices effectiveSlotIndex
        else fallback localBadgeFilesList
      else EmptyIndices
  end.

Definition selectBadge (v : Variant) : list string -> Z -> Z -> Outcome :=
  match v with
  | MainA => selectBadgeA
  | MainB => selectBadgeB
  | Vercel => selectBadgeInternal
  end.

(** The selection for a request whose slot parameter reads as the
    integer [s]. *)
Definition selectForSlot (v : Variant) (badges : list string) (baseSeed s : Z)
  : Outcome :=
  selectBadge v badges baseSeed (normalizeSlot v (Some s)).

(** [baseSeed := time.Now().Unix() / int64(timeWindowSeconds)] *)
Definition baseSeedAt (unix : Z) : Z := Go.quo unix timeWindowSeconds.

(** *** Discovery *)

(** What a request finds around it: the badge directory as a scan would
    see it, the clock at the freshness check, at the end of a scan and at
    the derivation of the seed (in seconds since the epoch), the outcome
    of [os.Stat] or of opening a path, and the variable [VERCEL] of the
    environment. *)
Record World := mkWorld {
  badgesTree : Go.Tree;
  nowCheck : Z;
  nowScanned : Z;
  nowUnix : Z;
  stat : string -> option Go.error;
  envVERCEL : string
}.

Definition eligible (name : string) : bool :=
  Go.HasSuffix (ToLower name) ".gif" || Go.HasSuffix (ToLower name) ".png".

(** The function literal passed to [filepath.WalkDir]; it appends to
    [discovered].  The second program does not log here. *)
Definition visit (v : Variant) (path : string) (x : Go.Visit)
                 (acc : list string * State)
  : (list string * State) * option Go.error :=
  let '(discovered, st) := acc in
  match x with
  | Go.Failure errWalk =>
      ((discovered,
        match v with
        | MainB => st
        | MainA | Vercel => say (LogErrAccess path errWalk) st
        end), Some errWalk)
  | Go.Entry name isDir =>
      if negb isDir && eligible name
      then (((discovered ++ [name])%list, st), None)
      else ((discovered, st), None)
  end.

Definition discoverBadges (v : Variant) (w : World) (st : State) : State :=
  let st := say LogDiscovering st in
  let st :=
    match v with
    | Vercel => if decide (envVERCEL w = "1") then say LogVercelEnv st else st
    | MainA | MainB => st
    end in
  let '((discovered, st), err) :=
    Go.WalkDir (visit v) badgesDir (badgesTree w) ([], st) in
  match err with
  | Some e => say (LogErrWalk e) st
  | None =>
      let st :=
        if decide (Go.len discovered > 0)
        then
          let discovered := Go.sortStrings discovered in
          say (LogDiscovered discovered) (setBadgeFilesList discovered st)
        else setBadgeFilesList [] (say LogNoneFound st) in
      setLastDiscoveryTime (nowScanned w) st
  end.

(** *** Handlers *)

Definition stale (w : World) (st : State) : bool :=
  bool_decide (Go.Since (nowCheck w) (lastDiscoveryTime st) > discoveryInterval).

(** [shouldDiscover] of [Handler], the entry point of the serverless
    variant. *)
Definition shouldDiscover (w : World) (st : State) : bool :=
  bool_decide (Go.len (badgeFilesList st) = 0) || stale w st.

(** The freshness check at the start of a request: [badgeHandler] looks at
    the age of the catalog, [Handler] also at its length. *)
Definition refresh (v : Variant) (w : World) (st : State) : State :=
  match v with
  | MainA | MainB => if stale w st then discoverBadges v w st else st
  | Vercel => if shouldDiscover w st then discoverBadges v w st else st
  end.

Definition header (selectedFilename : string) : list (string * string) :=
  [ ("Cache-Control", "no-cache, no-store, must-revalidate, public, max-age=0");
    ("Pragma", "no-cache");
    ("Expires", "0");
    ("Content-Type",
     if Go.HasSuffix (ToLower selectedFilename) ".png"
     then "image/png" else "image/gif") ].

(** The end of [badgeHandler] in both programs of [main.go]. *)
Definition serve (w : World) (slot baseSeed : Z) (selectedFilename : string)
                 (st : State) : State * Go.Response :=
  let filePath := Go.Join badgesDir selectedFilename in
  let st := say (LogServing slot baseSeed filePath) st in
  (st, Go.ServeFile (stat w) (header selectedFilename) filePath).

(** The end of [badgeHandlerInternal]: the file is looked up first. *)
Definition serveInternal (w : World) (slot baseSeed : Z)
                         (selectedFilename : string) (st : State)
  : State * Go.Response :=
  let filePath := Go.Join badgesDir selectedFilename in
  let st := say (LogServing slot baseSeed filePath) st in
  match stat w filePath with
  | Some Go.ErrNotExist =>
      (say (LogFileNotFound filePath) st,
       Go.HttpError 404 ("Badge file '" ++ selectedFilename ++ "' not found on server."))
  | _ => (st, Go.ServeFile (stat w) (header selectedFilename) filePath)
  end.

(** The replies of the branches that serve no file. *)
Definition refuse (o : Outcome) (st : State) : State * Go.Response :=
  match o with
  | NoBadges => (say LogNoBadges st, Go.HttpError 404 "No badges available")
  | NoBadgesAfterCopy =>
      (say LogCopyEmpty st, Go.HttpError 404 "No badges available after copy")
  | EmptyIndices =>
      (say LogEmptyIndices st,
       Go.HttpError 500 "Error selecting badge (empty internal list)")
  | SelectionError =>
      (say LogSelectError st, Go.HttpError 500 "Error selecting badge")
  | _ => (st, Go.Aborted)
  end.

(** [badgeHandler], first program of [main.go]. *)
Definition badgeHandlerA (w : World) (query : option string) (st : State)
  : State * Go.Response :=
  let st := if stale w st then discoverBadges MainA w st else st in
  let baseSeed := baseSeedAt (nowUnix w) in
  let slot := requestedSlot MainA query in
  match selectBadgeA (badgeFilesList st) baseSeed slot with
  | Chosen selectedFilename => serve w slot baseSeed selectedFilename st
  | ChosenFirst selectedFilename =>
      serve w slot baseSeed selectedFilename (say LogFallbackWarning st)
  | o => refuse o st
  end.

(** [badgeHandler], second program of [main.go]. *)
Definition badgeHandlerB (w : World) (query : option string) (st : State)
  : State * Go.Response :=
  let st := if stale w st then discoverBadges MainB w st else st in
  let baseSeed := baseSeedAt (nowUnix w) in
  let slot := requestedSlot MainB query in
  match selectBadgeB (badgeFilesList st) baseSeed slot with
  | NoBadges => refuse NoBadges st
  | o =>
      let st :=
        if slotRejected MainB (Go.Atoi (getSlot query))
        then say (LogInvalidSlot (getSlot query)) st else st in
      match o with
      | Chosen selectedFilename => serve w slot baseSeed selectedFilename st
      | ChosenFirst selectedFilename =>
          serve w slot baseSeed selectedFilename (say LogFallbackWarning st)
      | _ => refuse o st
      end
  end.

(** [badgeHandlerInternal] of the serverless variant. *)
Definition badgeHandlerInternal (w : World) (query : option string)
                                (st : State) : State * Go.Response :=
  let baseSeed := baseSeedAt (nowUnix w) in
  let slot := requestedSlot Vercel query in
  match selectBadgeInternal (badgeFilesList st) baseSeed slot with
  | Chosen selectedFilename => serveInternal w slot baseSeed selectedFilename st
  | ChosenFirst selectedFilename =>
      serveInternal w slot baseSeed selectedFilename (say LogFallbackWarning st)
  | o => refuse o st
  end.

Definition rootHandlerInternal (st : State) : State * Go.Response :=
  (st, Go.Text "Go Animated Badge Rotator (Slot-based, Vercel). Use /badge.gif?slot=N").

(** [Handler], the entry point of the serverless variant. *)
Definition Handler (w : World) (urlPath : string) (query : option string)
                   (st : State) : State * Go.Response :=
  let st := refresh Vercel w st in
  if decide (urlPath = "/badge.gif")
  then badgeHandlerInternal w query st
  else rootHandlerInternal st.

(** A request for the badge, in each variant. *)
Definition badgeRequest (v : Variant) (w : World) (query : option string)
                        (st : State) : State * Go.Response :=
  match v with
  | MainA => badgeHandlerA w query st
  | MainB => badgeHandlerB w query st
  | Vercel => Handler w "/badge.gif" query st
  end.

End Program.

(** ** The rest of the programs *)

(** [selectBadgeForSlot] of the second program of [main.go], which no
    handler calls: a generator seeded with [baseSeed + int64(slot)] draws
    one position with [Intn]; the function returns the name found there and
    the other names in their order.  [None] stands for a runtime panic.
    The two slice expressions are within bounds whenever the index
    expression before them is. *)
Section SelectBadgeForSlot.

Variable Rand : Type.
Variable NewRand : Z -> Rand.
Variable Intn : Rand -> Z -> Z * Rand.

(** [Intn] draws from the half-open interval [[0, n)]. *)
Definition IntnInRange : Prop :=
  forall r n, 0 < n -> 0 <= (Intn r n).1 < n.

Definition selectBadgeForSlot (availableBadges : list string)
                              (baseSeed slot : Z)
  : option (string * list string) :=
  if decide (Go.len availableBadges = 0) then Some ("", availableBadges) else
  let r := NewRand (Go.wrap (baseSeed + slot)) in
  let idxToPick := (Intn r (Go.len availableBadges)).1 in
  selected ← Go.index availableBadges idxToPick;
  let remainingBadges :=
    (take (Z.to_nat idxToPick) availableBadges
     ++ drop (Z.to_nat (idxToPick + 1)) availableBadges)%list in
  Some (selected, remainingBadges).

End SelectBadgeForSlot.

(** The package-level variables before [main] runs: a nil slice and the
    zero [time.Time], which is the first instant of the year 1.  Instants
    are counted from the Unix epoch. *)
Definition zeroTime : Z := -62135596800 * 1000000000.

Definition initialState : State := mkState [] zeroTime [].

(** [main] of every variant scans once before it serves. *)
Definition startup (ToLower : string -> string) (v : Variant) (w : World)
  : State :=
  discoverBadges ToLower v w initialState.

(** The handler [main] registers for "/badge.gif": [badgeHandler] in the two
    programs of [main.go], and [badgeHandlerInternal] itself, without
    [Handler] around it, in the serverless variant run as a program. *)
Definition mainBadgeHandler (ToLower : string -> string) (Rand : Type)
                            (NewRand : Z -> Rand)
                            (int31n Int63n : Rand -> Z -> Z * Rand)
                            (v : Variant)
  : World -> option string -> State -> State * Go.Response :=
  match v with
  | MainA => badgeHandlerA ToLower Rand NewRand int31n Int63n
  | MainB => badgeHandlerB ToLower Rand NewRand int31n Int63n
  | Vercel => badgeHandlerInternal ToLower Rand NewRand int31n Int63n
  end.

(** ** A concrete runtime

    An instance of the library functions the program is parametrised by,
    to run the model on examples: lower case on ASCII letters and a linear
    congruential generator. *)
Module Sample.

Definition lowerChar (c : ascii) : ascii :=
  let n := N_of_ascii c in
  if decide (65 <= n <= 90)%N then ascii_of_N (n + 32) else c.

Fixpoint ToLower (s : string) : string :=
  match s with
  | EmptyString => EmptyString
  | String c s' => String (lowerChar c) (ToLower s')
  end.

Definition Rand : Type := Z.

Definition NewRand (seed : Z) : Rand := seed mod 2 ^ 31.

Definition next (r : Rand) : Rand := (r * 1103515245 + 12345) mod 2 ^ 31.

Definition intn (r : Rand) (n : Z) : Z * Rand :=
  (if decide (0 < n) then next r mod n else 0, next r).

Definition selectBadge := selectBadge Rand NewRand intn intn.
Definition selectForSlot := selectForSlot Rand NewRand intn intn.
Definition discoverBadges := discoverBadges ToLower.
Definition badgeRequest := badgeRequest ToLower Rand NewRand intn intn.

(** A world in which every file can be opened, and one in which none
    exists. *)
Definition world (t : Go.Tree) (check scanned unix : Z) : World :=
  mkWorld t check scanned unix (fun _ => None) "".

Definition worldWithoutFiles (t : Go.Tree) (check scanned unix : Z) : World :=
  mkWorld t check scanned unix (fun _ => Some Go.ErrNotExist) "".

(** Catalogs and badge directories to run the model on. *)
Definition threeBadges : list string := ["a.gif"; "b.png"; "c.GIF"].

Definition fourBadges : list string := ["a.gif"; "b.png"; "c.GIF"; "d.gif"].

Definition flatTree : Go.Tree :=
  Go.Root (Go.Dir "badges" None
             [Go.File "a.gif"; Go.File "b.png"; Go.File "c.GIF";
              Go.File "notes.txt"]).

Definition nestedTree : Go.Tree :=
  Go.Root (Go.Dir "badges" None
             [Go.File "a.gif"; Go.Dir "old" None [Go.File "x.png"]]).

Definition unreadableTree : Go.Tree :=
  Go.Root (Go.Dir "badges" None
             [Go.File "a.gif"; Go.Dir "old" (Some Go.ErrPermission) []]).

(** The state right after a scan at time [t] that left the catalog as
    given. *)
Definition scannedAt (t : Z) (badges : list string) : State :=
  mkState badges t [].

(** [Intn] of the generator above, and the unused selection with it. *)
Definition selectBadgeForSlot := selectBadgeForSlot Rand NewRand intn.

Definition startup := startup ToLower.

(** A badge directory that holds no badge, and [flatTree] with one more
    badge. *)
Definition emptyTree : Go.Tree :=
  Go.Root (Go.Dir "badges" None [Go.File "notes.txt"]).

Definition grownTree : Go.Tree :=
  Go.Root (Go.Dir "badges" None
             [Go.File "a.gif"; Go.File "b.png"; Go.File "bb.gif";
              Go.File "c.GIF"; Go.File "notes.txt"]).

End Sample.

(** ** Notions of the specification *)

(** Decimal notation: a numeral is a non-empty row of digits, the last one
    being the least significant; an integer is a numeral with an optional
    sign. *)
Definition digitChars : list ascii :=
  ["0"; "1"; "2"; "3"; "4"; "5"; "6"; "7"; "8"; "9"]%char.

Inductive Numeral : string -> Z -> Prop :=
| Numeral_digit k c :
    digitChars !! k = Some c -> Numeral (String c "") (Z.of_nat k)
| Numeral_snoc s n k c :
    Numeral s n -> digitChars !! k = Some c ->
    Numeral (s ++ String c "") (10 * n + Z.of_nat k).

Inductive Integer : string -> Z -> Prop :=
| Integer_plain s n : Numeral s n -> Integer s n
| Integer_plus s n : Numeral s n -> Integer (String "+" s) n
| Integer_minus s n : Numeral s n -> Integer (String "-" s) (- n).

(** The query carries a slot that is an integer of Go's [int]. *)
Definition SlotValue (query : option string) (n : Z) : Prop :=
  exists s, query = Some s /\ Integer s n /\ Go.minInt <= n <= Go.maxInt.

(** The window of [timeWindowSeconds] seconds number [k] holds the instants
    [2k] and [2k + 1]. *)
Definition inWindow (k t : Z) : Prop :=
  timeWindowSeconds * k <= t < timeWindowSeconds * k + timeWindowSeconds.

Definition sameWindow (t1 t2 : Z) : Prop :=
  exists k, inWindow k t1 /\ inWindow k t2.

(** A scan was started between two states: [discoverBadges] announces
    itself in the log before anything else. *)
Definition discoveryRan (st st' : State) : Prop :=
  exists rest, logged st' = (logged st ++ LogDiscovering :: rest)%list.

(** One state carries the catalog and the time of another, and a longer
    log. *)
Definition logsMore (st st' : State) : Prop :=
  badgeFilesList st' = badgeFilesList st /\
  lastDiscoveryTime st' = lastDiscoveryTime st /\
  exists more, logged st' = (logged st ++ more)%list.

(** The time since the last scan, unrounded, and five minutes in
    nanoseconds. *)
Definition elapsed (w : World) (st : State) : Z :=
  nowCheck w - lastDiscoveryTime st.

Definition fiveMinutes : Z := 300000000000.

(** A message names a file when the file's name occurs in it. *)
Definition mentions (msg file : string) : Prop :=
  exists pre post, msg = pre ++ file ++ post.

(** The catalog read through a slice of indices. *)
Definition namesAt (badges : list string) (indices : list Z) : list string :=
  (fun k => default "" (Go.index badges k)) <$> indices.

(** The slots [1..n]. *)
Definition slotsUpTo (n : nat) : list Z := Z.of_nat <$> seq 1 n.

(** The slots a variant tells apart for a catalog of [n] badges: all of
    [1..n], or those up to [numBadgeSlots] where the slot is capped. *)
Definition distinctSlots (v : Variant) (n : nat) : nat :=
  match v with
  | MainA | Vercel => n
  | MainB => n `min` Z.to_nat numBadgeSlots
  end.

Fixpoint occurs (file msg : string) : bool :=
  String.prefix file msg
  || match msg with
     | EmptyString => false
     | String _ msg' => occurs file msg'
     end.

(** The file a selection settles on. *)
Definition selectedFile (o : Outcome) : option string :=
  match o with
  | Chosen file | ChosenFirst file => Some file
  | _ => None
  end.

(** The names of all entries below a node that are not directories, in the
    order of the walk. *)
Fixpoint allFiles (d : Go.Node) : list string :=
  match d with
  | Go.File name => [name]
  | Go.Dir _ _ entries =>
      (fix all (l : list Go.Node) : list string :=
         match l with
         | [] => []
         | d1 :: l' => (allFiles d1 ++ all l')%list
         end) entries
  end.

(** The first error a walk in pre-order meets, if any. *)
Fixpoint nodeError (d : Go.Node) : option Go.error :=
  match d with
  | Go.File _ => None
  | Go.Dir _ (Some e) _ => Some e
  | Go.Dir _ None entries =>
      (fix first (l : list Go.Node) : option Go.error :=
         match l with
         | [] => None
         | d1 :: l' =>
             match nodeError d1 with
             | Some e => Some e
             | None => first l'
             end
         end) entries
  end.

Definition firstError (t : Go.Tree) : option Go.error :=
  match t with
  | Go.LstatFails e => Some e
  | Go.Root d => nodeError d
  end.

(** The names of the entries of the badge directory itself that are not
    directories. *)
Definition topLevelFiles (t : Go.Tree) : list string :=
  match t with
  | Go.Root (Go.Dir _ _ entries) =>
      omap (fun d => match d with Go.File name => Some name | _ => None end)
           entries
  | _ => []
  end.

(** The catalog is sorted and holds eligible names only. *)
Definition CatalogOk (ToLower : string -> string) (st : State) : Prop :=
  Sorted Go.le (badgeFilesList st) /\
  Forall (fun name => eligible ToLower name) (badgeFilesList st).

(** The state after a row of badge requests, each with its world and its
    slot parameter. *)
Definition run (step : World -> option string -> State -> State * Go.Response)
               (requests : list (World * option string)) (st : State) : State :=
  fold_left (fun st r => (step r.1 r.2 st).1) requests st.

(** What serving a file of the catalog comes to: the reply of
    [http.ServeFile] with the headers of the file, and in the serverless
    variant the 404 of the handler itself when the file does not exist. *)
Definition servedReply (ToLower : string -> string) (v : Variant) (w : World)
                       (file : string) : Go.Response :=
  let filePath := Go.Join badgesDir file in
  match v, stat w filePath with
  | Vercel, Some Go.ErrNotExist =>
      Go.HttpError 404 ("Badge file '" ++ file ++ "' not found on server.")
  | _, _ => Go.ServeFile (stat w) (header ToLower file) filePath
  end.

(** All entries of a directory are files. *)
Definition allFilesOnly (entries : list Go.Node) : Prop :=
  Forall (fun d => match d with Go.File _ => True | _ => False end) entries.

(** * Properties *)

(** ** The library functions on examples *)

Example Atoi_ex1 : Go.Atoi "12" = Some 12. Proof. reflexivity. Qed.
Example Atoi_ex2 : Go.Atoi "-3" = Some (-3). Proof. reflexivity. Qed.
Example Atoi_ex3 : Go.Atoi "" = None. Proof. reflexivity. Qed.
Example Atoi_ex4 : Go.Atoi "1a" = None. Proof. reflexivity. Qed.
Example Atoi_ex5 : Go.Atoi "9223372036854775808" = None. Proof. reflexivity. Qed.
Example Atoi_ex6 : Go.Atoi "+" = None. Proof. reflexivity. Qed.
Example Join_ex : Go.Join "./badges" "a.gif" = "badges/a.gif". Proof. reflexivity. Qed.
Example HasSuffix_ex : Go.HasSuffix "a.gif" ".gif" = true. Proof. reflexivity. Qed.
Example sort_ex : Go.sortStrings ["c.GIF"; "b.png"; "a.gif"] = ["a.gif"; "b.png"; "c.GIF"].
Proof. reflexivity. Qed.

(** ** Integers and slices *)

Lemma wrap_id z : Go.minInt <= z <= Go.maxInt -> Go.wrap z = z.
Proof.
  unfold Go.wrap, Go.minInt, Go.maxInt. intros H.
  rewrite Z.mod_small; lia.
Qed.

Lemma index_in_range {A} (a : list A) i x :
  Go.index a i = Some x -> 0 <= i < Go.len a.
Proof.
  unfold Go.index, Go.len. case_decide; [|done].
  intros Hx%lookup_lt_Some. lia.
Qed.

Lemma index_is_Some {A} (a : list A) i :
  0 <= i < Go.len a -> is_Some (Go.index a i).
Proof.
  unfold Go.index, Go.len. intros Hi. case_decide; [|lia].
  apply lookup_lt_is_Some. lia.
Qed.

Lemma index_elem_of {A} (a : list A) i x : Go.index a i = Some x -> x ∈ a.
Proof.
  unfold Go.index. case_decide; [|done]. apply list_elem_of_lookup_2.
Qed.

Lemma index_inj {A} (a : list A) i j x :
  NoDup a -> Go.index a i = Some x -> Go.index a j = Some x -> i = j.
Proof.
  unfold Go.index. intros Hnd. repeat case_decide; try done.
  intros Hi Hj. pose proof (NoDup_lookup _ _ _ _ Hnd Hi Hj). lia.
Qed.

Lemma swap_Permutation a i j a' : swap a i j = Some a' -> a' ≡ₚ a.
Proof.
  unfold swap, Go.index. intros Hs.
  repeat case_decide; simplify_option_eq.
  by apply Permutation_insert_swap.
Qed.

Lemma swap_is_Some a i j :
  0 <= i < Go.len a -> 0 <= j < Go.len a -> is_Some (swap a i j).
Proof.
  intros [x Hx]%index_is_Some [y Hy]%index_is_Some.
  unfold swap. rewrite Hx, Hy. simpl. eauto.
Qed.

Lemma identityIndices_length n : length (identityIndices n) = n.
Proof. unfold identityIndices. by rewrite length_map, length_seq. Qed.

Lemma identityIndices_NoDup n : NoDup (identityIndices n).
Proof.
  unfold identityIndices. apply NoDup_fmap_2; [|apply NoDup_seq].
  intros x y. lia.
Qed.

Lemma identityIndices_elem_of n k :
  k ∈ identityIndices n <-> 0 <= k < Z.of_nat n.
Proof.
  unfold identityIndices. rewrite list_elem_of_fmap. split.
  - intros (i & -> & Hi%elem_of_seq). lia.
  - intros H. exists (Z.to_nat k). split; [lia|]. apply elem_of_seq. lia.
Qed.

(** ** strconv.Atoi reads decimal notation *)

Lemma digit_spec c d :
  Go.digit c = Some d <-> exists k, digitChars !! k = Some c /\ d = Z.of_nat k.
Proof.
  split.
  - destruct c as [[] [] [] [] [] [] [] []]; vm_compute; intros Hd;
      try discriminate; injection Hd as <-;
      first [ by exists 0%nat | by exists 1%nat | by exists 2%nat
            | by exists 3%nat | by exists 4%nat | by exists 5%nat
            | by exists 6%nat | by exists 7%nat | by exists 8%nat
            | by exists 9%nat ].
  - intros (k & Hk & ->).
    do 10 (destruct k as [|k]; [injection Hk as <-; reflexivity|]).
    discriminate.
Qed.

Lemma digits_snoc acc s c :
  Go.digits acc (s ++ String c "") =
  n ← Go.digits acc s; d ← Go.digit c; Some (n * 10 + d).
Proof.
  revert acc. induction s as [|c' s IH]; intros acc; simpl.
  - by destruct (Go.digit c).
  - destruct (Go.digit c'); [apply IH|done].
Qed.

Lemma string_snoc_ind (P : string -> Prop) :
  P "" -> (forall s c, P s -> P (s ++ String c "")) -> forall s, P s.
Proof.
  intros Hnil Hsnoc s.
  rewrite <- (string_of_list_ascii_of_string s).
  induction (list_ascii_of_string s) as [|c l IH] using rev_ind; [done|].
  assert (string_of_list_ascii (l ++ [c])%list
          = string_of_list_ascii l ++ String c "") as ->; [|by apply Hsnoc].
  clear. induction l as [|a l IH]; simpl; [done|]. by rewrite IH.
Qed.

Lemma append_nil_inv s t : s ++ t = "" -> s = "" /\ t = "".
Proof. destruct s; simpl; [done|discriminate]. Qed.

Lemma Numeral_digits s n : Numeral s n -> s <> "" /\ Go.digits 0 s = Some n.
Proof.
  induction 1 as [k c Hk|s n k c _ [_ IH] Hk].
  - split; [done|]. simpl.
    assert (Go.digit c = Some (Z.of_nat k)) as -> by (apply digit_spec; eauto).
    done.
  - split; [by intros [_ ?]%append_nil_inv|].
    rewrite digits_snoc, IH. simpl.
    assert (Go.digit c = Some (Z.of_nat k)) as -> by (apply digit_spec; eauto).
    simpl. f_equal. lia.
Qed.

Lemma digits_Numeral s n : s <> "" -> Go.digits 0 s = Some n -> Numeral s n.
Proof.
  revert n. induction s as [|s c IH] using string_snoc_ind; [done|].
  intros n _. rewrite digits_snoc.
  destruct (Go.digits 0 s) as [m|] eqn:Hm; [simpl|done].
  destruct (Go.digit c) as [d|] eqn:Hd; [simpl|done].
  intros [= <-]. apply digit_spec in Hd as (k & Hk & ->).
  destruct s as [|c' s'].
  - simpl in Hm. injection Hm as <-. simpl. by apply Numeral_digit.
  - replace (m * 10 + Z.of_nat k) with (10 * m + Z.of_nat k) by lia.
    apply Numeral_snoc; [by apply IH|done].
Qed.

Lemma unsigned_spec s n : Go.unsigned s = Some n <-> Numeral s n.
Proof.
  split.
  - destruct s; [done|]. by apply digits_Numeral.
  - intros [Hne Hd]%Numeral_digits. by destruct s.
Qed.

Lemma Numeral_head c s n :
  Numeral (String c s) n -> c <> "-"%char /\ c <> "+"%char.
Proof.
  intros [_ Hd]%Numeral_digits. simpl in Hd.
  by split; intros ->.
Qed.

Lemma inRange_spec v n :
  Go.inRange v = Some n <-> n = v /\ Go.minInt <= v <= Go.maxInt.
Proof.
  unfold Go.inRange. destruct (decide _) as [Hr|Hr]; split.
  - by intros [= ->].
  - by intros [-> _].
  - done.
  - by intros [_ ?].
Qed.

Lemma Atoi_spec s v :
  Go.Atoi s = Some v <-> Integer s v /\ Go.minInt <= v <= Go.maxInt.
Proof.
  split.
  - destruct s as [|c s]; [done|]. unfold Go.Atoi.
    repeat case_decide; subst;
      intros (n & Hn%unsigned_spec & [-> Hr]%inRange_spec)%bind_Some;
      split; try done; by constructor.
  - intros [Hi Hr]. destruct Hi as [s n Hn|s n Hn|s n Hn].
    + destruct s as [|c s]; [by apply Numeral_digits in Hn as [? _]|].
      pose proof (Numeral_head _ _ _ Hn) as [? ?].
      unfold Go.Atoi. repeat case_decide; try done.
      apply bind_Some. exists n. split; [by apply unsigned_spec|].
      by apply inRange_spec.
    + unfold Go.Atoi. repeat case_decide; try done.
      apply bind_Some. exists n. split; [by apply unsigned_spec|].
      by apply inRange_spec.
    + unfold Go.Atoi. repeat case_decide; try done.
      apply bind_Some. exists n. split; [by apply unsigned_spec|].
      by apply inRange_spec.
Qed.

(** ** Slot normalisation *)

Lemma Atoi_range s v : Go.Atoi s = Some v -> Go.minInt <= v <= Go.maxInt.
Proof. by intros [_ ?]%Atoi_spec. Qed.

Lemma normalizeSlot_accepts v parsed :
  slotRejected v parsed = false -> parsed = Some (normalizeSlot v parsed).
Proof.
  unfold normalizeSlot. destruct parsed as [n|]; [|done].
  by intros ->.
Qed.

Lemma requestedSlot_range v query :
  1 <= requestedSlot v query <= Go.maxInt.
Proof.
  unfold requestedSlot, normalizeSlot.
  destruct (slotRejected v _) eqn:Hrej; [unfold Go.maxInt; lia|].
  destruct (Go.Atoi (getSlot query)) as [n|] eqn:Hn; [|discriminate].
  apply Atoi_range in Hn. simpl.
  destruct v; simpl in Hrej;
    repeat (apply orb_false_iff in Hrej as [Hrej ?]);
    apply bool_decide_eq_false in Hrej; lia.
Qed.

Lemma slot_index slot n :
  1 <= slot <= Go.maxInt -> 0 < n ->
  Go.rem (Go.sub slot 1) n = (slot - 1) mod n.
Proof.
  intros Hs Hn. unfold Go.rem, Go.sub.
  rewrite wrap_id by (unfold Go.minInt, Go.maxInt in *; lia).
  apply Z.rem_mod_nonneg; lia.
Qed.

(** ** The shuffle and the selection *)

Section Selection.

Context (Rand : Type) (NewRand : Z -> Rand).
Context (int31n Int63n : Rand -> Z -> Z * Rand).

Local Abbreviation draw := (draw Rand int31n Int63n).
Local Abbreviation shuffleFrom := (shuffleFrom Rand int31n Int63n).
Local Abbreviation Shuffle := (Shuffle Rand int31n Int63n).
Local Abbreviation selectBadgeA := (selectBadgeA Rand NewRand int31n Int63n).
Local Abbreviation selectBadgeB := (selectBadgeB Rand NewRand int31n Int63n).
Local Abbreviation selectBadgeInternal :=
  (selectBadgeInternal Rand NewRand int31n Int63n).
Local Abbreviation selectBadge := (selectBadge Rand NewRand int31n Int63n).

Lemma shuffleFrom_Permutation i r a a' :
  shuffleFrom i r a = Some a' -> a' ≡ₚ a.
Proof.
  revert r a. induction i as [|i IH]; intros r a; simpl.
  - by intros [= ->].
  - destruct (draw r _) as [j r'].
    intros (b & Hb%swap_Permutation & Hs%IH)%bind_Some.
    by rewrite Hs.
Qed.

Lemma Shuffle_Permutation r a a' : Shuffle r a = Some a' -> a' ≡ₚ a.
Proof. apply shuffleFrom_Permutation. Qed.

Lemma draw_range r i :
  DrawsInRange Rand int31n Int63n -> 0 <= i -> 0 <= (draw r i).1 <= i.
Proof.
  intros [H31 H63] Hi. unfold draw. case_decide.
  - specialize (H63 r (i + 1)). lia.
  - specialize (H31 r (i + 1)). lia.
Qed.

Lemma shuffleFrom_is_Some i r a :
  DrawsInRange Rand int31n Int63n ->
  (i < length a)%nat -> is_Some (shuffleFrom i r a).
Proof.
  intros Hdraw. revert r a. induction i as [|i IH]; intros r a Hi; simpl.
  - eauto.
  - pose proof (draw_range r (Z.of_nat (S i)) Hdraw ltac:(lia)) as Hj.
    destruct (draw r _) as [j r']. simpl in Hj.
    destruct (swap_is_Some a (Z.of_nat (S i)) j) as [b Hb];
      [unfold Go.len; lia..|].
    rewrite Hb. simpl. apply IH.
    apply swap_Permutation, Permutation_length in Hb. lia.
Qed.

(** With draws in range the shuffle of a slice returns, and what it returns
    is a permutation of the slice. *)
Lemma Shuffle_total r a :
  DrawsInRange Rand int31n Int63n ->
  exists a', Shuffle r a = Some a' /\ a' ≡ₚ a.
Proof.
  intros Hdraw. unfold Shuffle. destruct a as [|x a].
  - simpl. eauto.
  - destruct (shuffleFrom_is_Some (length (x :: a) - 1) r (x :: a) Hdraw)
      as [a' Ha']; [simpl; lia|].
    exists a'. split; [done|]. by eapply shuffleFrom_Permutation.
Qed.

(** The three selections compute the same thing. *)
Lemma selectBadge_variants v badges seed slot :
  selectBadge v badges seed slot = selectBadgeA badges seed slot.
Proof.
  destruct v; [done|..]; simpl.
  - unfold selectBadgeB, selectBadgeA. by repeat case_decide.
  - unfold selectBadgeInternal, selectBadgeA.
    repeat case_decide; try done.
    destruct (Shuffle _ _) as [t|] eqn:Ht; [|done].
    apply Shuffle_Permutation, Permutation_length in Ht.
    rewrite identityIndices_length in Ht.
    assert (Go.len t = Go.len badges) by (unfold Go.len; lia).
    assert (0 <= Go.len badges) by (unfold Go.len; lia).
    repeat case_decide; try done; lia.
Qed.

(** The selection, unfolded: the guarded branch at the index
    [(slot - 1) mod N] of the shuffled indices. *)
Lemma selectBadge_guarded v badges seed slot :
  badges <> [] -> 1 <= slot <= Go.maxInt ->
  selectBadge v badges seed slot =
  match Shuffle (NewRand seed) (identityIndices (length badges)) with
  | None => Panicked
  | Some tempIndices =>
      pickAt badges tempIndices ((slot - 1) mod Go.len badges)
  end.
Proof.
  intros Hne Hslot. rewrite selectBadge_variants. unfold selectBadgeA.
  assert (0 < Go.len badges) as Hlen
    by (unfold Go.len; destruct badges; [done|simpl; lia]).
  repeat case_decide; try lia.
  destruct (Shuffle _ _) as [t|] eqn:Ht; [|done].
  assert (Go.len t = Go.len badges) as Hlt.
  { apply Shuffle_Permutation, Permutation_length in Ht.
    rewrite identityIndices_length in Ht. unfold Go.len. lia. }
  rewrite Hlt, slot_index by done.
  pose proof (Z.mod_pos_bound (slot - 1) (Go.len badges) Hlen).
  repeat case_decide; try lia. done.
Qed.

Lemma namesAt_identity badges :
  namesAt badges (identityIndices (length badges)) = badges.
Proof.
  unfold namesAt, identityIndices. apply list_eq. intros i.
  rewrite <- list_fmap_compose, list_lookup_fmap.
  destruct (decide (i < length badges)%nat) as [Hi|Hi].
  - rewrite lookup_seq_lt by done. simpl. unfold Go.index.
    case_decide; [|lia]. rewrite Nat2Z.id.
    by destruct (lookup_lt_is_Some_2 badges i Hi) as [x ->].
  - rewrite lookup_seq_ge by lia. simpl. symmetry.
    apply lookup_ge_None. lia.
Qed.

Lemma namesAt_Permutation badges t :
  t ≡ₚ identityIndices (length badges) -> namesAt badges t ≡ₚ badges.
Proof.
  intros Ht. rewrite <- (namesAt_identity badges) at 2.
  unfold namesAt. by rewrite Ht.
Qed.

(** Reading the catalog through a permutation of its index range stays
    within bounds at both steps. *)
Lemma pickAt_permuted badges t i :
  t ≡ₚ identityIndices (length badges) -> 0 <= i < Go.len badges ->
  exists k file,
    Go.index t i = Some k /\ 0 <= k < Go.len badges /\
    Go.index badges k = Some file /\
    namesAt badges t !! Z.to_nat i = Some file /\
    pickAt badges t i = Chosen file.
Proof.
  intros Ht Hi.
  assert (Go.len t = Go.len badges) as Hlen.
  { apply Permutation_length in Ht. rewrite identityIndices_length in Ht.
    unfold Go.len. lia. }
  destruct (index_is_Some t i) as [k Hk]; [lia|].
  assert (0 <= k < Go.len badges) as Hkr.
  { apply identityIndices_elem_of. rewrite <- Ht. by eapply index_elem_of. }
  destruct (index_is_Some badges k Hkr) as [file Hf].
  exists k, file. repeat split; try done; try lia.
  - unfold namesAt. rewrite list_lookup_fmap.
    unfold Go.index in Hk. case_decide; [|done]. by rewrite Hk; simpl; rewrite Hf.
  - unfold pickAt. by rewrite Hk, Hf.
Qed.

(** C1: for every non-empty catalog of size [N] and every slot parameter a
    caller may send, the selection is defined and returns a file of the
    catalog: the shuffle returns, the index [(slot - 1) mod N] lies within
    the shuffled indices, the index stored there lies within the catalog,
    and the guarded branch returns the file found there. *)
Theorem selection_within_bounds v badges seed query :
  DrawsInRange Rand int31n Int63n ->
  badges <> [] ->
  let slot := requestedSlot v query in
  let i := (slot - 1) mod Go.len badges in
  exists tempIndices k file,
    Shuffle (NewRand seed) (identityIndices (length badges)) = Some tempIndices /\
    0 <= i < Go.len tempIndices /\
    Go.index tempIndices i = Some k /\
    0 <= k < Go.len badges /\
    Go.index badges k = Some file /\
    selectBadge v badges seed slot = Chosen file /\
    file ∈ badges.
Proof.
  intros Hdraw Hne slot i.
  destruct (Shuffle_total (NewRand seed) (identityIndices (length badges)) Hdraw)
    as (t & Ht & Hperm).
  assert (0 < Go.len badges) as Hlen
    by (unfold Go.len; destruct badges; [done|simpl; lia]).
  assert (0 <= i < Go.len badges) as Hi by (apply Z.mod_pos_bound; lia).
  destruct (pickAt_permuted badges t i Hperm Hi)
    as (k & file & Hk & Hkr & Hf & _ & Hpick).
  exists t, k, file. repeat split; try done; try lia.
  - apply index_in_range in Hk. lia.
  - rewrite selectBadge_guarded by (done || apply requestedSlot_range).
    by rewrite Ht.
  - by eapply index_elem_of.
Qed.

(** C8: for every non-empty catalog of size [N] and every normalized slot
    (an [int] from 1 on, as every request yields one), the index
    [(slot - 1) % N] the code computes is below [N], and the selection ends
    neither in the fallback branch (first entry of the catalog, with a
    warning) nor in one of the branches that answer with status 500. *)
Theorem fallback_unreachable v badges seed slot :
  badges <> [] ->
  1 <= slot <= Go.maxInt ->
  Go.rem (Go.sub slot 1) (Go.len badges) < Go.len badges /\
  (forall file, selectBadge v badges seed slot <> ChosenFirst file) /\
  selectBadge v badges seed slot <> SelectionError /\
  selectBadge v badges seed slot <> EmptyIndices.
Proof.
  intros Hne Hslot.
  assert (0 < Go.len badges) as Hlen
    by (unfold Go.len; destruct badges; [done|simpl; lia]).
  split.
  { rewrite slot_index by done. apply Z.mod_pos_bound. lia. }
  rewrite selectBadge_guarded by done.
  destruct (Shuffle _ _) as [t|]; [|done].
  unfold pickAt. by repeat case_match.
Qed.

(** C10: on every catalog, with every seed and every slot, the selection of
    the first program of [main.go], of its second program and of the
    serverless variant arrive at the same outcome, hence at the same
    file. *)
Theorem selections_agree badges seed slot :
  selectBadgeA badges seed slot = selectBadgeB badges seed slot /\
  selectBadgeB badges seed slot = selectBadgeInternal badges seed slot.
Proof.
  pose proof (selectBadge_variants MainB badges seed slot) as HB.
  pose proof (selectBadge_variants Vercel badges seed slot) as HV.
  simpl in HB, HV. by rewrite HB, HV.
Qed.

Lemma selectForSlot_at v badges seed t i :
  Shuffle (NewRand seed) (identityIndices (length badges)) = Some t ->
  Go.len badges <= Go.maxInt ->
  (i < distinctSlots v (length badges))%nat ->
  exists file,
    namesAt badges t !! i = Some file /\
    selectForSlot Rand NewRand int31n Int63n v badges seed (Z.of_nat (1 + i))
    = Chosen file.
Proof.
  intros Ht Hmax Hi.
  assert (i < length badges)%nat as HiN by (destruct v; simpl in Hi; lia).
  assert (badges <> []) as Hne by (intros ->; simpl in HiN; lia).
  assert (normalizeSlot v (Some (Z.of_nat (1 + i))) = Z.of_nat (1 + i)) as Hnorm.
  { unfold normalizeSlot, slotRejected, numBadgeSlots.
    unfold distinctSlots, numBadgeSlots in Hi.
    destruct v; repeat case_bool_decide; try done; lia. }
  unfold selectForSlot. rewrite Hnorm.
  rewrite selectBadge_guarded by (done || unfold Go.len in Hmax; lia).
  rewrite Ht.
  replace ((Z.of_nat (1 + i) - 1) mod Go.len badges) with (Z.of_nat i)
    by (unfold Go.len; rewrite Z.mod_small; lia).
  destruct (pickAt_permuted badges t (Z.of_nat i))
    as (k & file & _ & _ & _ & Hname & Hpick);
    [by eapply Shuffle_Permutation|unfold Go.len; lia|].
  exists file. by rewrite Nat2Z.id in Hname.
Qed.

(** C2, as the code has it: within one window (one seed), on a catalog of
    [N] pairwise distinct names, the slots [1..N] are answered with [N]
    pairwise distinct files, which are the catalog in another order: slot
    and badge are in bijection.  Where the slot is capped, this holds of the
    slots up to the cap. *)
Theorem slots_map_to_distinct_badges v badges seed :
  DrawsInRange Rand int31n Int63n ->
  NoDup badges ->
  Go.len badges <= Go.maxInt ->
  exists files,
    selectForSlot Rand NewRand int31n Int63n v badges seed
      <$> slotsUpTo (distinctSlots v (length badges)) = Chosen <$> files /\
    NoDup files /\
    files ⊆ badges /\
    (v <> MainB -> files ≡ₚ badges).
Proof.
  intros Hdraw Hnd Hmax.
  destruct (Shuffle_total (NewRand seed) (identityIndices (length badges)) Hdraw)
    as (t & Ht & Hperm).
  pose proof (namesAt_Permutation badges t Hperm) as Hnames.
  set (n := distinctSlots v (length badges)).
  exists (take n (namesAt badges t)). repeat split.
  - apply list_eq. intros i. unfold slotsUpTo.
    rewrite !list_lookup_fmap.
    destruct (decide (i < n)%nat) as [Hi|Hi].
    + rewrite lookup_seq_lt, lookup_take_lt by done.
      destruct (selectForSlot_at v badges seed t i Ht Hmax Hi) as (f & Hf & Hs).
      rewrite Hf. exact (f_equal Some Hs).
    + by rewrite lookup_seq_ge, lookup_take_ge by lia.
  - assert (NoDup (namesAt badges t)) as Hall by (by rewrite Hnames).
    eauto using sublist_NoDup, sublist_take.
  - etrans; [apply subseteq_take|]. by rewrite Hnames.
  - intros Hv. rewrite take_ge; [done|].
    apply Permutation_length in Hnames. subst n. destruct v; simpl; try done; lia.
Qed.

(** Where the slot is capped, every slot above the cap is answered like
    slot 1, whatever the generator. *)
Lemma capped_slot_like_first badges seed s :
  numBadgeSlots < s ->
  selectForSlot Rand NewRand int31n Int63n MainB badges seed s
  = selectForSlot Rand NewRand int31n Int63n MainB badges seed 1.
Proof.
  intros Hs. unfold selectForSlot, normalizeSlot, slotRejected, numBadgeSlots in *.
  repeat case_bool_decide; simpl; try done; lia.
Qed.

End Selection.

(** ** Discovery *)

Lemma Node_ind' (P : Go.Node -> Prop) :
  (forall name, P (Go.File name)) ->
  (forall name e entries, Forall P entries -> P (Go.Dir name e entries)) ->
  forall d, P d.
Proof.
  intros Hfile Hdir. fix IH 1. intros [name|name e entries].
  - apply Hfile.
  - apply Hdir. induction entries as [|d l IHl]; constructor.
    + apply IH.
    + apply IHl.
Qed.

Lemma logsMore_refl st : logsMore st st.
Proof. repeat split. exists []. by rewrite app_nil_r. Qed.

Lemma logsMore_say m st : logsMore st (say m st).
Proof. repeat split. by exists [m]. Qed.

Lemma logsMore_trans st1 st2 st3 :
  logsMore st1 st2 -> logsMore st2 st3 -> logsMore st1 st3.
Proof.
  intros (Hb1 & Ht1 & m1 & Hl1) (Hb2 & Ht2 & m2 & Hl2).
  repeat split; [congruence..|].
  exists (m1 ++ m2)%list. by rewrite Hl2, Hl1, app_assoc.
Qed.

Section Discovery.

Context (ToLower : string -> string).

Local Abbreviation eligible := (eligible ToLower).
Local Abbreviation visit := (visit ToLower).
Local Abbreviation discoverBadges := (discoverBadges ToLower).

(** The walk either meets its first error and stops, having changed
    nothing but the log, or collects the eligible names of all entries
    that are not directories, at every depth, and leaves the state
    alone. *)
Lemma walkDir_visit v d : forall path discovered st,
  match nodeError d with
  | None =>
      Go.walkDir (visit v) path d (discovered, st)
      = ((discovered ++ filter (fun name => eligible name) (allFiles d))%list,
         st, None)
  | Some e =>
      exists found st',
        Go.walkDir (visit v) path d (discovered, st) = (found, st', Some e) /\
        logsMore st st'
  end.
Proof.
  induction d as [name|name readErr entries IH] using Node_ind';
    intros path discovered st.
  - simpl. destruct (eligible name) eqn:He.
    + rewrite filter_cons_True by (by rewrite He). done.
    + rewrite filter_cons_False by (rewrite He; simpl; tauto).
      by rewrite filter_nil, app_nil_r.
  - destruct readErr as [e|].
    + simpl. eexists _, _. split; [reflexivity|].
      destruct v; auto using logsMore_refl, logsMore_say.
    + cbn [nodeError Go.walkDir visit negb andb].
      revert discovered.
      induction IH as [|d1 l Hd1 _ IHl]; intros discovered.
      * by rewrite app_nil_r.
      * specialize (Hd1 (Go.Join path (Go.nodeName d1)) discovered st).
        destruct (nodeError d1) as [e|].
        -- destruct Hd1 as (found & st' & -> & Hmore). eauto.
        -- rewrite Hd1. cbn [allFiles].
           rewrite filter_app, app_assoc. apply IHl.
Qed.

Lemma WalkDir_visit v t discovered st :
  match firstError t with
  | None =>
      exists d, t = Go.Root d /\
      Go.WalkDir (visit v) badgesDir t (discovered, st)
      = ((discovered ++ filter (fun name => eligible name) (allFiles d))%list,
         st, None)
  | Some e =>
      exists found st',
        Go.WalkDir (visit v) badgesDir t (discovered, st) = (found, st', Some e) /\
        logsMore st st'
  end.
Proof.
  destruct t as [e|d]; simpl.
  - eexists _, _. split; [reflexivity|].
    destruct v; auto using logsMore_refl, logsMore_say.
  - pose proof (walkDir_visit v d badgesDir discovered st) as Hw.
    destruct (nodeError d); [done|eauto].
Qed.

Lemma discoverBadges_announces v w st :
  exists rest,
    logged (discoverBadges v w st) = (logged st ++ LogDiscovering :: rest)%list.
Proof.
  unfold discoverBadges.
  set (st0 := match v with
              | Vercel => if decide (envVERCEL w = "1")
                          then say LogVercelEnv (say LogDiscovering st)
                          else say LogDiscovering st
              | _ => say LogDiscovering st
              end).
  assert (exists r0, logged st0 = (logged st ++ LogDiscovering :: r0)%list)
    as [r0 Hr0].
  { subst st0. destruct v; [by exists []..|].
    case_decide; simpl; [|by exists []].
    exists [LogVercelEnv]. by rewrite <- app_assoc. }
  pose proof (WalkDir_visit v (badgesTree w) [] st0) as Hw.
  destruct (firstError (badgesTree w)) as [e|].
  - destruct Hw as (found & st' & -> & _ & _ & more & Hmore).
    simpl. rewrite Hmore, Hr0. eexists.
    by rewrite <- !app_assoc, <- app_comm_cons.
  - destruct Hw as (d & _ & ->).
    case_decide; simpl; rewrite Hr0; eexists;
      by rewrite <- !app_assoc, <- app_comm_cons.
Qed.

(** C6: when the scan fails (the root cannot be examined, or a directory
    met by the walk cannot be read), [discoverBadges] returns with the
    catalog exactly as it was, entry by entry, and with the time of the last
    scan untouched; the error is the last line it logs. *)
Theorem scan_error_keeps_catalog v w st e :
  firstError (badgesTree w) = Some e ->
  badgeFilesList (discoverBadges v w st) = badgeFilesList st /\
  lastDiscoveryTime (discoverBadges v w st) = lastDiscoveryTime st /\
  exists before,
    logged (discoverBadges v w st) = (logged st ++ before ++ [LogErrWalk e])%list.
Proof.
  intros He. unfold discoverBadges.
  set (st0 := match v with
              | Vercel => if decide (envVERCEL w = "1")
                          then say LogVercelEnv (say LogDiscovering st)
                          else say LogDiscovering st
              | _ => say LogDiscovering st
              end).
  assert (logsMore st st0) as H0.
  { subst st0. destruct v; try case_decide;
      eauto using logsMore_say, logsMore_trans. }
  pose proof (WalkDir_visit v (badgesTree w) [] st0) as Hw.
  rewrite He in Hw. destruct Hw as (found & st' & -> & H1).
  destruct (logsMore_trans _ _ _ H0 H1) as (Hb & Ht & more & Hl).
  simpl. repeat split; [done..|].
  exists more. by rewrite Hl, app_assoc.
Qed.

Lemma discoverBadges_succeeds v w st :
  firstError (badgesTree w) = None ->
  exists d,
    badgesTree w = Go.Root d /\
    badgeFilesList (discoverBadges v w st)
    = Go.sortStrings (filter (fun name => eligible name) (allFiles d)) /\
    lastDiscoveryTime (discoverBadges v w st) = nowScanned w.
Proof.
  intros He. unfold discoverBadges.
  match goal with
  | |- context [Go.WalkDir _ _ _ (_, ?s)] =>
      pose proof (WalkDir_visit v (badgesTree w) [] s) as Hw
  end.
  rewrite He in Hw. destruct Hw as (d & Hd & ->).
  exists d. split; [done|]. rewrite app_nil_l.
  case_decide as Hlen; simpl; [done|]. split; [|done].
  destruct (filter _ _); [done|]. unfold Go.len in Hlen. simpl in Hlen. lia.
Qed.

Lemma discoverBadges_sorted v w st :
  firstError (badgesTree w) = None ->
  Sorted Go.le (badgeFilesList (discoverBadges v w st)).
Proof.
  intros (d & _ & -> & _)%(discoverBadges_succeeds v w st).
  apply Sorted_merge_sort, _.
Qed.

(** In a badge directory without subdirectories the walk sees the entries
    of the directory itself and no others. *)
Lemma allFiles_flat name readErr entries :
  Forall (fun d => match d with Go.File _ => True | _ => False end) entries ->
  allFiles (Go.Dir name readErr entries)
  = topLevelFiles (Go.Root (Go.Dir name readErr entries)).
Proof.
  simpl. induction 1 as [|d l Hd _ IH]; [done|].
  destruct d; [|done]. simpl. by rewrite IH.
Qed.

(** X9: on a readable badge directory without subdirectories the catalog
    after a scan is sorted and holds exactly the eligible names among the
    entries of the directory. *)
Lemma discoverBadges_flat_directory v w st name entries :
  badgesTree w = Go.Root (Go.Dir name None entries) ->
  Forall (fun d => match d with Go.File _ => True | _ => False end) entries ->
  let catalog := badgeFilesList (discoverBadges v w st) in
  Sorted Go.le catalog /\
  catalog ≡ₚ filter (fun name => eligible name) (topLevelFiles (badgesTree w)) /\
  forall file,
    file ∈ catalog <-> file ∈ topLevelFiles (badgesTree w) /\ eligible file.
Proof.
  intros Htree Hflat catalog.
  assert (firstError (badgesTree w) = None) as Hok.
  { rewrite Htree. simpl. clear -Hflat.
    induction Hflat as [|d l Hd _ IH]; [done|]. by destruct d. }
  assert (catalog ≡ₚ filter (fun name => eligible name)
                       (topLevelFiles (badgesTree w))) as Hperm.
  { destruct (discoverBadges_succeeds v w st Hok) as (d & Hd & Hcat & _).
    subst catalog. rewrite Hcat. unfold Go.sortStrings.
    rewrite merge_sort_Permutation, Htree, <- allFiles_flat by done.
    rewrite Htree in Hd. by injection Hd as <-. }
  split; [by apply discoverBadges_sorted|]. split; [done|].
  intros file. by rewrite Hperm, list_elem_of_filter, (comm and).
Qed.

End Discovery.

(** ** Requests *)

Lemma stale_spec w st : stale w st = true <-> fiveMinutes < elapsed w st.
Proof.
  unfold stale, Go.Since, elapsed, discoveryInterval, Go.Minute, fiveMinutes,
    Go.maxInt, Go.minInt.
  rewrite bool_decide_eq_true. repeat case_decide; lia.
Qed.

Lemma shouldDiscover_spec w st :
  shouldDiscover w st = true <->
  badgeFilesList st = [] \/ fiveMinutes < elapsed w st.
Proof.
  unfold shouldDiscover. rewrite orb_true_iff, bool_decide_eq_true, stale_spec.
  unfold Go.len. destruct (badgeFilesList st); simpl; split;
    intros [Hl|Hl]; auto; (lia || discriminate).
Qed.

Lemma prefix_app file post : String.prefix file (file ++ post) = true.
Proof.
  induction file as [|c file IH]; simpl; [by destruct post|].
  destruct (ascii_dec c c); [done|congruence].
Qed.

Lemma mentions_occurs msg file : mentions msg file -> occurs file msg = true.
Proof.
  intros (pre & post & ->). induction pre as [|c pre IH]; simpl.
  - destruct file; simpl; [by destruct post|].
    rewrite prefix_app. by destruct (ascii_dec a a).
  - rewrite IH. apply orb_true_r.
Qed.

Section Requests.

Context (ToLower : string -> string).
Context (Rand : Type) (NewRand : Z -> Rand).
Context (int31n Int63n : Rand -> Z -> Z * Rand).

Local Abbreviation discoverBadges := (discoverBadges ToLower).
Local Abbreviation refresh := (refresh ToLower).
Local Abbreviation selectBadge := (selectBadge Rand NewRand int31n Int63n).
Local Abbreviation badgeRequest :=
  (badgeRequest ToLower Rand NewRand int31n Int63n).

(** What a request logs after its freshness check does not start with the
    announcement of a scan. *)
Lemma badgeRequest_logs v w query st :
  exists tail,
    logged (badgeRequest v w query st).1 = (logged (refresh v w st) ++ tail)%list /\
    head tail <> Some LogDiscovering.
Proof.
  unfold badgeRequest, badgeHandlerA, badgeHandlerB, Handler,
    badgeHandlerInternal, serve, serveInternal, refuse.
  destruct v;
    [fold (refresh MainA w st); generalize (refresh MainA w st)
    |fold (refresh MainB w st); generalize (refresh MainB w st)
    |fold (refresh Vercel w st); generalize (refresh Vercel w st)];
    intros st1; try case_decide; try done;
    repeat case_match; simplify_eq/=;
    first [ by exists []; rewrite app_nil_r
          | rewrite <- ?app_assoc; eexists; split; [reflexivity|done] ].
Qed.

Lemma badgeHandlerInternal_logs w query st :
  exists tail,
    logged (badgeHandlerInternal ToLower Rand NewRand int31n Int63n w query st).1
    = (logged st ++ tail)%list /\
    head tail <> Some LogDiscovering.
Proof.
  unfold badgeHandlerInternal, serveInternal, refuse.
  repeat case_match; simplify_eq/=;
    first [ by exists []; rewrite app_nil_r
          | rewrite <- ?app_assoc; eexists; split; [reflexivity|done] ].
Qed.

Lemma no_scan_in_tail st tail :
  head tail <> Some LogDiscovering ->
  ~ exists rest, (logged st ++ tail = logged st ++ LogDiscovering :: rest)%list.
Proof. intros Hhead [rest Hrest%app_inv_head]. by subst tail. Qed.

(** C3, as the code has it: on a badge request that enters the serverless
    variant through [Handler] a scan is started exactly when the catalog is
    empty or more than five minutes have passed since the last scan; on a
    badge request of the two programs of [main.go] a scan is started
    exactly when more than five minutes have passed, whether the catalog is
    empty or not; and [badgeHandlerInternal] on its own, as [main] of the
    serverless variant registers it, starts none. *)
Theorem refresh_on_request v w query st :
  (discoveryRan st (badgeRequest v w query st).1 <->
   match v with
   | MainA | MainB => fiveMinutes < elapsed w st
   | Vercel => badgeFilesList st = [] \/ fiveMinutes < elapsed w st
   end) /\
  ~ discoveryRan st
      (badgeHandlerInternal ToLower Rand NewRand int31n Int63n w query st).1.
Proof.
  split; cycle 1.
  { destruct (badgeHandlerInternal_logs w query st) as (tail & Hlog & Hhead).
    unfold discoveryRan. rewrite Hlog. by apply no_scan_in_tail. }
  destruct (badgeRequest_logs v w query st) as (tail & Hlog & Hhead).
  unfold discoveryRan. rewrite Hlog.
  assert (forall due : bool,
             refresh v w st = (if due then discoverBadges v w st else st) ->
             (exists rest, logged (refresh v w st) ++ tail
                           = logged st ++ LogDiscovering :: rest)%list
             <-> due = true) as Hdue.
  { intros due ->. destruct due.
    - destruct (discoverBadges_announces ToLower v w st) as [rest ->].
      split; [done|]. intros _. exists (rest ++ tail)%list.
      by rewrite <- app_assoc, <- app_comm_cons.
    - split; [|done]. intros Hran. by apply no_scan_in_tail in Hran. }
  destruct v; simpl in Hdue |- *.
  - rewrite <- stale_spec. by apply Hdue.
  - rewrite <- stale_spec. by apply Hdue.
  - rewrite <- shouldDiscover_spec. by apply Hdue.
Qed.

(** C7, as the code has it: when the file selected for a request does not
    exist at serve time, the serverless variant finds out with [os.Stat]
    and answers 404 with a message that names the file, without calling
    [http.ServeFile]; the two programs of [main.go] hand the path to
    [http.ServeFile], whose answer is the library's 404 page. *)
Theorem missing_file_reply v w query st file :
  selectedFile
    (selectBadge v (badgeFilesList (refresh v w st))
                 (baseSeedAt (nowUnix w)) (requestedSlot v query))
  = Some file ->
  stat w (Go.Join badgesDir file) = Some Go.ErrNotExist ->
  exists msg,
    (badgeRequest v w query st).2 = Go.HttpError 404 msg /\
    match v with
    | MainA | MainB => msg = "404 page not found"
    | Vercel =>
        msg = "Badge file '" ++ file ++ "' not found on server." /\
        mentions msg file
    end.
Proof.
  unfold badgeRequest, badgeHandlerA, badgeHandlerB, Handler,
    badgeHandlerInternal, serve, serveInternal, refuse, Go.ServeFile.
  destruct v;
    [fold (refresh MainA w st); generalize (refresh MainA w st)
    |fold (refresh MainB w st); generalize (refresh MainB w st)
    |fold (refresh Vercel w st); generalize (refresh Vercel w st)];
    intros st1 Hsel Hstat; try case_decide; try done; simpl in Hsel;
    destruct (_ Rand NewRand int31n Int63n _ _ _) as [| | |f|f| |];
    simpl in Hsel; try discriminate; injection Hsel as ->;
    cbv zeta; rewrite ?Hstat; try case_match; cbv zeta; rewrite ?Hstat;
    simpl; eexists; (split; [reflexivity|]); try done.
  all: split; [done|]; by exists "Badge file '", "' not found on server.".
Qed.

End Requests.

(** ** The slot parameter *)

(** C4, as the code has it: the slot is reset to 1 exactly when the
    parameter is absent, is not a decimal integer of Go's [int], or is less
    than 1, and in the second program of [main.go] also when it is greater
    than [numBadgeSlots]; every other slot is used as it is.  In the first
    program and in the serverless variant this leaves every integer from 1
    up to the largest [int] unchanged. *)
Theorem slot_normalization v query :
  (slotRejected v (Go.Atoi (getSlot query)) = true <->
   ~ exists n, SlotValue query n /\ 1 <= n /\ (v = MainB -> n <= numBadgeSlots))
  /\ (slotRejected v (Go.Atoi (getSlot query)) = true ->
      requestedSlot v query = 1)
  /\ (forall n, SlotValue query n -> 1 <= n ->
                (v = MainB -> n <= numBadgeSlots) ->
                requestedSlot v query = n).
Proof.
  assert (forall n, SlotValue query n -> Go.Atoi (getSlot query) = Some n)
    as Hread.
  { intros n (s & -> & Hi & Hr). simpl. by apply Atoi_spec. }
  assert (forall n, Go.Atoi (getSlot query) = Some n -> SlotValue query n)
    as Hvalue.
  { intros n Hn. destruct query as [s|]; [|done].
    apply Atoi_spec in Hn as [Hi Hr]. by exists s. }
  assert (forall n, 1 <= n -> (v = MainB -> n <= numBadgeSlots) ->
                    slotRejected v (Some n) = false) as Hkeep.
  { intros n H1 Hcap. unfold numBadgeSlots in *.
    destruct v; simpl; repeat case_bool_decide; try done;
      unfold numBadgeSlots in *; try lia; specialize (Hcap eq_refl); lia. }
  assert (forall n, slotRejected v (Some n) = false ->
                    1 <= n /\ (v = MainB -> n <= numBadgeSlots)) as Hkept.
  { intros n. unfold numBadgeSlots.
    destruct v; simpl; repeat case_bool_decide; try done; intros _;
      unfold numBadgeSlots in *; (split; [lia|]); try done; intros _; lia. }
  repeat split.
  - intros Hrej (n & Hn%Hread & H1 & Hcap).
    rewrite Hn, Hkeep in Hrej by done. discriminate.
  - intros Hnone. destruct (slotRejected _ _) eqn:Hrej; [done|].
    destruct (Go.Atoi (getSlot query)) as [n|] eqn:Hn; [|done].
    destruct Hnone. exists n. split; [by apply Hvalue|by apply Hkept].
  - unfold requestedSlot, normalizeSlot. by intros ->.
  - intros n Hn%Hread H1 Hcap. unfold requestedSlot, normalizeSlot.
    by rewrite Hn, Hkeep.
Qed.

(** ** The seed *)

(** C9: the seed is the Unix time divided by the window length of two
    seconds, and for Unix times as the clock of a running server yields
    them, from the epoch on, two instants in the same window have the same
    seed and two instants in different windows have different seeds. *)
Theorem seed_per_window t1 t2 :
  0 <= t1 <= Go.maxInt -> 0 <= t2 <= Go.maxInt ->
  baseSeedAt t1 = t1 `div` timeWindowSeconds /\
  (sameWindow t1 t2 <-> baseSeedAt t1 = baseSeedAt t2).
Proof.
  intros H1 H2.
  assert (forall t, 0 <= t <= Go.maxInt -> baseSeedAt t = t `div` 2) as Hseed.
  { intros t Ht. unfold baseSeedAt, Go.quo, timeWindowSeconds.
    rewrite Z.quot_div_nonneg by lia.
    apply wrap_id. unfold Go.minInt, Go.maxInt in *.
    pose proof (Z.div_pos t 2). pose proof (Z.div_le_upper_bound t 2 t). lia. }
  rewrite !Hseed by done. split; [done|].
  unfold sameWindow, inWindow, timeWindowSeconds. split.
  - intros (k & Hk1 & Hk2).
    rewrite <- (Z.div_unique_pos t1 2 k (t1 - 2 * k)) by lia.
    by rewrite <- (Z.div_unique_pos t2 2 k (t2 - 2 * k)) by lia.
  - intros Heq. exists (t1 `div` 2).
    pose proof (Z.div_mod t1 2). pose proof (Z.mod_pos_bound t1 2).
    pose proof (Z.div_mod t2 2). pose proof (Z.mod_pos_bound t2 2).
    rewrite Heq at 3 4. lia.
Qed.

(** ** The model on concrete inputs *)

Lemma sample_draws_in_range :
  DrawsInRange Sample.Rand Sample.intn Sample.intn.
Proof.
  split; intros r n Hn; unfold Sample.intn; simpl;
    (case_decide; [|lia]); apply Z.mod_pos_bound; lia.
Qed.

Lemma threeBadges_NoDup : NoDup Sample.threeBadges.
Proof. apply (bool_decide_unpack _). by vm_compute. Defined.

Lemma fourBadges_NoDup : NoDup Sample.fourBadges.
Proof. apply (bool_decide_unpack _). by vm_compute. Defined.

(** C1 at the catalog of the specification's example and the slot 4. *)
Lemma selection_within_bounds_witness :
  exists file,
    Sample.selectBadge MainA Sample.threeBadges 0 (requestedSlot MainA (Some "4"))
    = Chosen file /\
    file ∈ Sample.threeBadges.
Proof.
  destruct (selection_within_bounds Sample.Rand Sample.NewRand Sample.intn
              Sample.intn MainA Sample.threeBadges 0 (Some "4")
              sample_draws_in_range ltac:(discriminate))
    as (t & k & file & _ & _ & _ & _ & _ & Hsel & Hin).
  by exists file.
Defined.

(** C2 at the same catalog. *)
Lemma slots_map_to_distinct_badges_witness :
  exists files,
    Sample.selectForSlot MainA Sample.threeBadges 0 <$> slotsUpTo 3
    = Chosen <$> files /\
    NoDup files /\ files ≡ₚ Sample.threeBadges.
Proof.
  destruct (slots_map_to_distinct_badges Sample.Rand Sample.NewRand Sample.intn
              Sample.intn MainA Sample.threeBadges 0
              sample_draws_in_range threeBadges_NoDup ltac:(by vm_compute))
    as (files & Hsel & Hnd & _ & Hperm).
  exists files. repeat split; [done..|]. by apply Hperm.
Defined.

(** C2 does not hold of the second program of [main.go]: with four badges,
    slot 4 exceeds [numBadgeSlots], is reset to 1 and is answered with the
    badge of slot 1. *)
Lemma capped_slots_collide :
  NoDup Sample.fourBadges /\
  Sample.selectForSlot MainB Sample.fourBadges 0 <$> slotsUpTo 4
  = [Chosen "a.gif"; Chosen "c.GIF"; Chosen "d.gif"; Chosen "a.gif"] /\
  ~ NoDup (Sample.selectForSlot MainB Sample.fourBadges 0 <$> slotsUpTo 4).
Proof.
  split; [apply fourBadges_NoDup|]. split; [by vm_compute|].
  intros Hnd. apply (NoDup_lookup _ 0%nat 3%nat (Chosen "a.gif")) in Hnd;
    [discriminate|by vm_compute..].
Qed.

(** C3 does not hold of the first program of [main.go]: one second after a
    scan that found nothing, a request starts no scan although the catalog
    is empty, and is answered "No badges available". *)
Lemma empty_catalog_without_refresh :
  let st := Sample.scannedAt 0 [] in
  let w := Sample.world Sample.flatTree 1000000000 1000000001 10 in
  badgeFilesList st = [] /\
  (Sample.badgeRequest MainA w None st).2
  = Go.HttpError 404 "No badges available" /\
  ~ discoveryRan st (Sample.badgeRequest MainA w None st).1.
Proof.
  repeat split. intros [rest Hrest]. vm_compute in Hrest. discriminate.
Qed.

(** C4 does not hold of the second program of [main.go]: the slot 4 is an
    integer above [numBadgeSlots] and is reset to 1. *)
Lemma capped_slot_is_reset :
  SlotValue (Some "4") 4 /\
  slotRejected MainB (Go.Atoi (getSlot (Some "4"))) = true /\
  requestedSlot MainB (Some "4") = 1.
Proof.
  repeat split. exists "4". repeat split; try done.
  constructor. by apply (Numeral_digit 4 "4"%char).
Qed.

(** A slot beyond Go's [int] is reset to 1 in every variant. *)
Example slot_out_of_range v :
  requestedSlot v (Some "9223372036854775808") = 1.
Proof. by destruct v. Qed.

(** C5 fails on a badge directory with a subdirectory: the walk descends
    into it, and the catalog lists a file that is no entry of the badge
    directory. *)
Theorem discovery_lists_nested_files v :
  let w := Sample.world Sample.nestedTree 0 1 0 in
  badgeFilesList (Sample.discoverBadges v w (Sample.scannedAt 0 []))
  = ["a.gif"; "x.png"] /\
  topLevelFiles Sample.nestedTree = ["a.gif"] /\
  Go.Join badgesDir "x.png" = "badges/x.png".
Proof. by destruct v. Qed.

(** The same descent lets one name enter the catalog twice, and then two
    slots share a badge. *)
Example nested_duplicate_names v :
  let t := Go.Root (Go.Dir "badges" None
                      [Go.File "a.gif"; Go.Dir "old" None [Go.File "a.gif"]]) in
  let catalog :=
    badgeFilesList (Sample.discoverBadges v (Sample.world t 0 1 0)
                                          (Sample.scannedAt 0 [])) in
  catalog = ["a.gif"; "a.gif"] /\
  Sample.selectForSlot v catalog 0 1 = Sample.selectForSlot v catalog 0 2.
Proof. by destruct v. Qed.

(** On a badge directory without subdirectories the catalog is as C5
    describes it. *)
Example discovery_of_flat_directory v :
  let w := Sample.world Sample.flatTree 0 1 0 in
  badgeFilesList (Sample.discoverBadges v w (Sample.scannedAt 0 []))
  = ["a.gif"; "b.png"; "c.GIF"].
Proof. by destruct v. Qed.

(** C6 at a badge directory with an unreadable subdirectory. *)
Lemma scan_error_keeps_catalog_witness :
  let w := Sample.world Sample.unreadableTree 0 1 0 in
  let st := Sample.scannedAt 0 Sample.threeBadges in
  badgeFilesList (Sample.discoverBadges MainA w st) = Sample.threeBadges /\
  lastDiscoveryTime (Sample.discoverBadges MainA w st) = 0.
Proof.
  intros w st.
  destruct (scan_error_keeps_catalog Sample.ToLower MainA w st Go.ErrPermission
              eq_refl) as (Hlist & Htime & _).
  by split.
Defined.

(** C7 at a catalog whose only file has been deleted, serverless variant. *)
Lemma missing_file_reply_witness :
  let w := Sample.worldWithoutFiles Sample.flatTree 0 1 10 in
  (Sample.badgeRequest Vercel w (Some "1") (Sample.scannedAt 0 ["a.gif"])).2
  = Go.HttpError 404 "Badge file 'a.gif' not found on server.".
Proof.
  intros w.
  destruct (missing_file_reply Sample.ToLower Sample.Rand Sample.NewRand
              Sample.intn Sample.intn Vercel w (Some "1")
              (Sample.scannedAt 0 ["a.gif"]) "a.gif" eq_refl eq_refl)
    as (msg & Hresp & -> & _).
  exact Hresp.
Defined.

(** C7 does not hold of the first program of [main.go]: the reply to a
    request for a deleted file is the 404 page of [http.ServeFile], which
    does not name the file. *)
Lemma missing_file_not_named :
  let w := Sample.worldWithoutFiles Sample.flatTree 0 1 10 in
  (Sample.badgeRequest MainA w (Some "1") (Sample.scannedAt 0 ["a.gif"])).2
  = Go.HttpError 404 "404 page not found" /\
  ~ mentions "404 page not found" "a.gif".
Proof.
  split; [done|]. by intros Hm%mentions_occurs.
Qed.

(** C8 at the catalog of the specification's example. *)
Lemma fallback_unreachable_witness :
  Go.rem (Go.sub (requestedSlot Vercel (Some "7")) 1) (Go.len Sample.threeBadges)
  < Go.len Sample.threeBadges /\
  Sample.selectBadge Vercel Sample.threeBadges 0 (requestedSlot Vercel (Some "7"))
  <> SelectionError.
Proof.
  destruct (fallback_unreachable Sample.Rand Sample.NewRand Sample.intn
              Sample.intn Vercel Sample.threeBadges 0
              (requestedSlot Vercel (Some "7"))
              ltac:(discriminate) ltac:(by vm_compute))
    as (Hlt & _ & Hno & _).
  by split.
Defined.

(** C9 at two instants of the window number 5. *)
Lemma seed_per_window_witness : baseSeedAt 10 = baseSeedAt 11.
Proof.
  destruct (seed_per_window 10 11 ltac:(by vm_compute) ltac:(by vm_compute))
    as [_ Hiff].
  apply Hiff. exists 5. by vm_compute.
Defined.

(** Instants before the epoch, which [time.Now] does not yield on a
    running server, are outside this: the division truncates toward zero,
    so there the seeds do not follow the windows. *)
Lemma seed_before_epoch :
  sameWindow (-2) (-1) /\ baseSeedAt (-2) <> baseSeedAt (-1) /\
  ~ sameWindow (-1) 0 /\ baseSeedAt (-1) = baseSeedAt 0.
Proof.
  repeat split.
  - exists (-1). by vm_compute.
  - by vm_compute.
  - intros (k & Hk1 & Hk2). unfold inWindow, timeWindowSeconds in *. lia.
Qed.

(** * Further properties of the programs *)

(** ** The slot and the shuffle *)

(** X1: whatever the request carries, the slot the selection works with is
    at least 1 and fits Go's [int]; in the second program of [main.go] it is
    at most [numBadgeSlots]. *)
Theorem requested_slot_bounds v query :
  1 <= requestedSlot v query <= Go.maxInt /\
  (v = MainB -> requestedSlot v query <= numBadgeSlots).
Proof.
  split; [apply requestedSlot_range|]. intros ->.
  unfold requestedSlot, normalizeSlot, numBadgeSlots.
  destruct (slotRejected MainB _) eqn:Hrej; [lia|].
  destruct (Go.Atoi (getSlot query)) as [n|]; [|discriminate].
  simpl in *. apply orb_false_iff in Hrej as [_ Hcap].
  apply bool_decide_eq_false in Hcap. unfold numBadgeSlots in Hcap. lia.
Qed.

Section FurtherSelection.

Context (Rand : Type) (NewRand : Z -> Rand).
Context (int31n Int63n : Rand -> Z -> Z * Rand).

Local Abbreviation Shuffle := (Shuffle Rand int31n Int63n).
Local Abbreviation selectBadge := (selectBadge Rand NewRand int31n Int63n).
Local Abbreviation selectBadgeA := (selectBadgeA Rand NewRand int31n Int63n).

(** X2: with draws in range, shuffling the indices [0..n-1] never indexes
    out of range, and what it leaves in [tempIndices] is a permutation of
    them: as many indices, no index twice, every index of the range
    present. *)
Theorem shuffled_indices_permutation seed n :
  DrawsInRange Rand int31n Int63n ->
  exists tempIndices,
    Shuffle (NewRand seed) (identityIndices n) = Some tempIndices /\
    tempIndices ≡ₚ identityIndices n /\
    length tempIndices = n /\
    NoDup tempIndices /\
    forall k, k ∈ tempIndices <-> 0 <= k < Z.of_nat n.
Proof.
  intros Hdraw.
  destruct (Shuffle_total Rand int31n Int63n (NewRand seed)
              (identityIndices n) Hdraw) as (t & Ht & Hperm).
  exists t. split; [done|]. split; [done|]. split; [|split].
  - by rewrite Hperm, identityIndices_length.
  - rewrite Hperm. apply identityIndices_NoDup.
  - intros k. rewrite Hperm. apply identityIndices_elem_of.
Qed.

(** A selection that settles on a file settles on a file of the catalog,
    in the guarded branch and in the fallback branch alike. *)
Lemma selectedFile_elem_of v badges seed slot file :
  selectedFile (selectBadge v badges seed slot) = Some file -> file ∈ badges.
Proof.
  rewrite selectBadge_variants. unfold selectBadgeA, pickAt, fallback.
  repeat (case_decide || case_match); simplify_eq/=; try done;
    intros [= <-]; by eapply index_elem_of.
Qed.

(** With draws in range the selection on a non-empty catalog ends in the
    guarded branch, on a file of the catalog. *)
Lemma selectBadge_chooses v badges seed slot :
  DrawsInRange Rand int31n Int63n ->
  badges <> [] -> 1 <= slot <= Go.maxInt ->
  exists file, selectBadge v badges seed slot = Chosen file /\ file ∈ badges.
Proof.
  intros Hdraw Hne Hslot.
  destruct (Shuffle_total Rand int31n Int63n (NewRand seed)
              (identityIndices (length badges)) Hdraw) as (t & Ht & Hperm).
  assert (0 < Go.len badges) as Hlen
    by (unfold Go.len; destruct badges; [done|simpl; lia]).
  destruct (pickAt_permuted badges t ((slot - 1) mod Go.len badges) Hperm)
    as (k & file & _ & _ & Hf & _ & Hpick); [by apply Z.mod_pos_bound|].
  exists file. rewrite selectBadge_guarded, Ht by done.
  split; [done|]. by eapply index_elem_of.
Qed.

(** X3: the selection looks at the slot only through [(slot - 1) mod N]:
    two normalized slots that agree there get the same answer, whatever the
    generator draws.  So slot [N + 1] is answered like slot 1. *)
Theorem congruent_slots_agree v badges seed slot1 slot2 :
  1 <= slot1 <= Go.maxInt -> 1 <= slot2 <= Go.maxInt ->
  (slot1 - 1) mod Go.len badges = (slot2 - 1) mod Go.len badges ->
  selectBadge v badges seed slot1 = selectBadge v badges seed slot2.
Proof.
  intros H1 H2 Hmod. destruct (decide (badges = [])) as [->|Hne].
  - rewrite !selectBadge_variants. done.
  - by rewrite !selectBadge_guarded, Hmod by done.
Qed.

End FurtherSelection.

(** ** Scans *)

Section FurtherDiscovery.

Context (ToLower : string -> string).

Local Abbreviation eligible := (eligible ToLower).
Local Abbreviation discoverBadges := (discoverBadges ToLower).

(** A scan that fails changes the log only. *)
Lemma discoverBadges_fails_keeps v w st e :
  firstError (badgesTree w) = Some e -> logsMore st (discoverBadges v w st).
Proof.
  intros He. unfold discoverBadges.
  set (st0 := match v with
              | Vercel => if decide (envVERCEL w = "1")
                          then say LogVercelEnv (say LogDiscovering st)
                          else say LogDiscovering st
              | _ => say LogDiscovering st
              end).
  assert (logsMore st st0) as H0.
  { subst st0. destruct v; try case_decide;
      eauto using logsMore_say, logsMore_trans. }
  pose proof (WalkDir_visit ToLower v (badgesTree w) [] st0) as Hw.
  rewrite He in Hw. destruct Hw as (found & st' & -> & H1).
  eauto using logsMore_say, logsMore_trans.
Qed.

(** X8: a scan that meets no error replaces the catalog wholesale: the new
    catalog is sorted, holds the eligible names of all entries below the
    badge directory that are not directories, each as often as it occurs,
    and does not depend on the catalog before; the time of the last scan
    becomes the time at the end of this one. *)
Theorem successful_scan_catalog v w st :
  firstError (badgesTree w) = None ->
  exists d,
    badgesTree w = Go.Root d /\
    Sorted Go.le (badgeFilesList (discoverBadges v w st)) /\
    badgeFilesList (discoverBadges v w st)
    ≡ₚ filter (fun name => eligible name) (allFiles d) /\
    (forall v' st',
        badgeFilesList (discoverBadges v' w st')
        = badgeFilesList (discoverBadges v w st)) /\
    lastDiscoveryTime (discoverBadges v w st) = nowScanned w.
Proof.
  intros Hok.
  destruct (discoverBadges_succeeds ToLower v w st Hok) as (d & Hd & Hcat & Ht).
  exists d. split; [done|]. split; [by apply discoverBadges_sorted|].
  split; [|split; [|done]].
  - rewrite Hcat. apply merge_sort_Permutation.
  - intros v' st'.
    destruct (discoverBadges_succeeds ToLower v' w st' Hok) as (d' & Hd' & -> & _).
    rewrite Hcat. congruence.
Qed.

(** A scan keeps the catalog sorted and eligible, whether it fails or
    not. *)
Lemma discoverBadges_CatalogOk v w st :
  CatalogOk ToLower st -> CatalogOk ToLower (discoverBadges v w st).
Proof.
  intros [Hsorted Hall]. unfold CatalogOk.
  destruct (firstError (badgesTree w)) as [e|] eqn:He.
  - destruct (discoverBadges_fails_keeps v w st e He) as (-> & _ & _). done.
  - split; [by apply discoverBadges_sorted|].
    destruct (discoverBadges_succeeds ToLower v w st He) as (d & _ & -> & _).
    unfold Go.sortStrings. rewrite merge_sort_Permutation.
    apply Forall_forall. by intros name [? _]%list_elem_of_filter.
Qed.

(** X10: when a badge is added to a readable badge directory without
    subdirectories, the next scan yields the catalog of before with the new
    name added once: every earlier entry is still present, the catalog is
    one longer and sorted. *)
Theorem scan_after_adding_a_badge v w1 w2 st1 st2 name before after file :
  allFilesOnly (before ++ after) ->
  badgesTree w1 = Go.Root (Go.Dir name None (before ++ after)) ->
  badgesTree w2 = Go.Root (Go.Dir name None (before ++ Go.File file :: after)) ->
  eligible file = true ->
  let old := badgeFilesList (discoverBadges v w1 st1) in
  let new := badgeFilesList (discoverBadges v w2 st2) in
  new ≡ₚ file :: old /\
  Sorted Go.le new /\
  length new = S (length old) /\
  old ⊆ new.
Proof.
  intros Hflat Ht1 Ht2 Hfile old new.
  assert (allFilesOnly (before ++ Go.File file :: after)) as Hflat2.
  { unfold allFilesOnly in *. apply Forall_app in Hflat as [? ?].
    apply Forall_app. split; [done|]. by constructor. }
  assert (forall w entries,
             allFilesOnly entries ->
             badgesTree w = Go.Root (Go.Dir name None entries) ->
             firstError (badgesTree w) = None) as Hok.
  { intros w entries Hf ->. simpl. clear -Hf.
    induction Hf as [|d l Hd _ IH]; [done|]. by destruct d. }
  assert (forall w st entries,
             allFilesOnly entries ->
             badgesTree w = Go.Root (Go.Dir name None entries) ->
             badgeFilesList (discoverBadges v w st)
             ≡ₚ filter (fun name => eligible name)
                  (topLevelFiles (badgesTree w))) as Hcat.
  { intros w st entries Hf Ht.
    destruct (discoverBadges_succeeds ToLower v w st (Hok w entries Hf Ht))
      as (d & Hd & -> & _).
    unfold Go.sortStrings. rewrite merge_sort_Permutation.
    rewrite Ht in Hd |- *. injection Hd as <-. by rewrite allFiles_flat. }
  assert (new ≡ₚ file :: old) as Hperm.
  { subst old new. rewrite (Hcat w2 st2 _ Hflat2 Ht2), (Hcat w1 st1 _ Hflat Ht1).
    rewrite Ht1, Ht2. simpl. rewrite !omap_app. simpl.
    rewrite !filter_app, filter_cons_True by (by rewrite Hfile).
    by rewrite <- Permutation_middle. }
  split; [done|]. split; [|split].
  - apply discoverBadges_sorted. by eapply Hok.
  - by rewrite Hperm.
  - intros x Hx. rewrite Hperm. by right.
Qed.

End FurtherDiscovery.

(** ** Requests *)

Section FurtherRequests.

Context (ToLower : string -> string).
Context (Rand : Type) (NewRand : Z -> Rand).
Context (int31n Int63n : Rand -> Z -> Z * Rand).

Local Abbreviation discoverBadges := (discoverBadges ToLower).
Local Abbreviation refresh := (refresh ToLower).
Local Abbreviation selectBadge := (selectBadge Rand NewRand int31n Int63n).
Local Abbreviation badgeRequest :=
  (badgeRequest ToLower Rand NewRand int31n Int63n).

(** Whether the freshness check of a variant asks for a scan. *)
Local Abbreviation due v w st :=
  (match v with
   | MainA | MainB => stale w st
   | Vercel => shouldDiscover w st
   end).

Lemma refresh_unfold v w st :
  refresh v w st = if due v w st then discoverBadges v w st else st.
Proof. by destruct v. Qed.

(** After its freshness check a request touches neither the catalog nor
    the time of the last scan. *)
Lemma badgeRequest_keeps v w query st :
  badgeFilesList (badgeRequest v w query st).1
  = badgeFilesList (refresh v w st) /\
  lastDiscoveryTime (badgeRequest v w query st).1
  = lastDiscoveryTime (refresh v w st).
Proof.
  unfold badgeRequest, badgeHandlerA, badgeHandlerB, Handler,
    badgeHandlerInternal, serve, serveInternal, refuse.
  destruct v;
    [fold (refresh MainA w st); generalize (refresh MainA w st)
    |fold (refresh MainB w st); generalize (refresh MainB w st)
    |fold (refresh Vercel w st); generalize (refresh Vercel w st)];
    intros st1; try case_decide; try done;
    by repeat case_match.
Qed.

(** The reply of a request, read off the outcome of its selection. *)
Lemma badgeRequest_reply v w query st :
  (badgeRequest v w query st).2 =
  match selectBadge v (badgeFilesList (refresh v w st))
                    (baseSeedAt (nowUnix w)) (requestedSlot v query) with
  | Chosen file | ChosenFirst file => servedReply ToLower v w file
  | NoBadges => Go.HttpError 404 "No badges available"
  | NoBadgesAfterCopy => Go.HttpError 404 "No badges available after copy"
  | EmptyIndices =>
      Go.HttpError 500 "Error selecting badge (empty internal list)"
  | SelectionError => Go.HttpError 500 "Error selecting badge"
  | Panicked => Go.Aborted
  end.
Proof.
  unfold badgeRequest, badgeHandlerA, badgeHandlerB, Handler,
    badgeHandlerInternal, serve, serveInternal, refuse, servedReply.
  destruct v;
    [fold (refresh MainA w st); generalize (refresh MainA w st)
    |fold (refresh MainB w st); generalize (refresh MainB w st)
    |fold (refresh Vercel w st); generalize (refresh Vercel w st)];
    intros st1; try case_decide; try done; simpl;
    by repeat case_match.
Qed.

(** A request starts a scan exactly when its freshness check asks for
    one. *)
Lemma request_scans_iff v w query st :
  discoveryRan st (badgeRequest v w query st).1 <-> due v w st = true.
Proof.
  destruct (badgeRequest_logs ToLower Rand NewRand int31n Int63n v w query st)
    as (tail & Hlog & Hhead).
  unfold discoveryRan. rewrite Hlog, refresh_unfold.
  destruct (due v w st).
  - destruct (discoverBadges_announces ToLower v w st) as [rest ->].
    split; [done|]. intros _. exists (rest ++ tail)%list.
    by rewrite <- app_assoc, <- app_comm_cons.
  - split; [|done]. intros Hran. by apply no_scan_in_tail in Hran.
Qed.

(** X4: when the catalog is empty after the freshness check, every variant
    answers the badge request with 404 "No badges available"; no file is
    looked up and the catalog stays empty. *)
Theorem empty_catalog_reply v w query st :
  badgeFilesList (refresh v w st) = [] ->
  (badgeRequest v w query st).2 = Go.HttpError 404 "No badges available" /\
  badgeFilesList (badgeRequest v w query st).1 = [].
Proof.
  intros Hempty. split.
  - rewrite badgeRequest_reply, Hempty, selectBadge_variants. done.
  - destruct (badgeRequest_keeps v w query st) as [-> _]. done.
Qed.

(** X5: with draws in range, a badge request that finds the catalog
    non-empty after the freshness check always ends in serving a file of
    the catalog: the reply is that of [http.ServeFile] for the file under
    the badge directory with the no-cache headers and the content type of
    the file (or, in the serverless variant, the handler's own 404 when the
    file is gone); the handler does not panic and does not answer with one
    of its own status-500 errors. *)
Theorem badge_request_serves_catalog_file v w query st :
  DrawsInRange Rand int31n Int63n ->
  badgeFilesList (refresh v w st) <> [] ->
  exists file,
    file ∈ badgeFilesList (refresh v w st) /\
    (badgeRequest v w query st).2 = servedReply ToLower v w file.
Proof.
  intros Hdraw Hne.
  destruct (selectBadge_chooses Rand NewRand int31n Int63n v
              (badgeFilesList (refresh v w st)) (baseSeedAt (nowUnix w))
              (requestedSlot v query) Hdraw Hne (requestedSlot_range v query))
    as (file & Hsel & Hin).
  exists file. split; [done|]. by rewrite badgeRequest_reply, Hsel.
Qed.

(** X6: whatever the generator draws, a badge request never sends bytes of
    a file that is not in the catalog: when the reply carries a file, its
    path is the badge directory joined with a name of the catalog as the
    request leaves it, the file could be opened, and the headers are the
    three cache headers and the content type of that name. *)
Theorem served_file_is_in_catalog v w query st hdr path :
  (badgeRequest v w query st).2 = Go.FileBytes hdr path ->
  exists file,
    file ∈ badgeFilesList (badgeRequest v w query st).1 /\
    path = Go.Join badgesDir file /\
    hdr = header ToLower file /\
    stat w path = None.
Proof.
  rewrite badgeRequest_reply. intros Hreply.
  destruct (badgeRequest_keeps v w query st) as [-> _].
  set (o := selectBadge _ _ _ _) in *.
  assert (exists file, selectedFile o = Some file /\
                       servedReply ToLower v w file = Go.FileBytes hdr path)
    as (file & Hfile & Hserved) by (destruct o; try done; eauto).
  exists file. split; [by eapply selectedFile_elem_of|].
  unfold servedReply, Go.ServeFile in Hserved.
  destruct v; repeat case_match; by simplify_eq.
Qed.

(** A request keeps the catalog sorted and eligible. *)
Lemma badgeRequest_CatalogOk v w query st :
  CatalogOk ToLower st -> CatalogOk ToLower (badgeRequest v w query st).1.
Proof.
  intros Hok. unfold CatalogOk.
  destruct (badgeRequest_keeps v w query st) as [-> _].
  rewrite refresh_unfold. destruct (due v w st); [|done].
  by apply discoverBadges_CatalogOk.
Qed.

(** X7: the catalog stays sorted and free of names that are not eligible
    over every row of badge requests, whatever the badge directory looks
    like at each of them and whether its scans fail or not. *)
Theorem requests_keep_catalog_ok v requests st :
  CatalogOk ToLower st ->
  CatalogOk ToLower (run (badgeRequest v) requests st).
Proof.
  revert st. induction requests as [|[w query] requests IH]; intros st Hok.
  - done.
  - simpl. apply IH. by apply badgeRequest_CatalogOk.
Qed.

Lemma due_spec v w st :
  due v w st = true <->
  (v = Vercel /\ badgeFilesList st = []) \/ fiveMinutes < elapsed w st.
Proof.
  destruct v; rewrite ?stale_spec, ?shouldDiscover_spec;
    intuition (discriminate || eauto).
Qed.

(** X11: the first badge request a process sees with its variables still
    at their zero values (no scan yet, or only failed ones) starts a scan in
    every variant, at any time from the epoch on: the zero time lies more
    than five minutes back. *)
Theorem first_request_scans v w query :
  0 <= nowCheck w ->
  discoveryRan initialState (badgeRequest v w query initialState).1.
Proof.
  intros Hnow. apply request_scans_iff, due_spec. right.
  unfold elapsed, fiveMinutes, initialState, zeroTime. simpl. lia.
Qed.

(** X12: a failed scan does not count as a refresh.  When a request starts
    a scan and the scan fails, the catalog and the time of the last scan are
    what they were, so every later request starts a scan again. *)
Theorem failed_scan_is_retried v w query st e w' query' :
  discoveryRan st (badgeRequest v w query st).1 ->
  firstError (badgesTree w) = Some e ->
  nowCheck w <= nowCheck w' ->
  let st1 := (badgeRequest v w query st).1 in
  badgeFilesList st1 = badgeFilesList st /\
  lastDiscoveryTime st1 = lastDiscoveryTime st /\
  discoveryRan st1 (badgeRequest v w' query' st1).1.
Proof.
  intros Hran He Hlater st1.
  apply request_scans_iff in Hran.
  destruct (badgeRequest_keeps v w query st) as [Hlist Htime].
  rewrite refresh_unfold, Hran in Hlist, Htime. cbv iota in Hlist, Htime.
  destruct (discoverBadges_fails_keeps ToLower v w st e He) as (Hl & Ht & _).
  assert (badgeFilesList st1 = badgeFilesList st) as Hlist1
    by (unfold st1; congruence).
  assert (lastDiscoveryTime st1 = lastDiscoveryTime st) as Htime1
    by (unfold st1; congruence).
  split; [done|]. split; [done|].
  apply request_scans_iff, due_spec. apply due_spec in Hran.
  unfold elapsed in *. rewrite Hlist1, Htime1.
  destruct Hran as [?|?]; [by left|right; lia].
Qed.

(** X13: the five minutes are counted from the end of the last successful
    scan.  After a scan without error a badge request starts the next scan
    exactly when more than five minutes have passed since that scan ended,
    or, in the serverless variant, when that scan found no badge. *)
Theorem scan_interval_after_success v w st w' query :
  firstError (badgesTree w) = None ->
  let st1 := discoverBadges v w st in
  discoveryRan st1 (badgeRequest v w' query st1).1 <->
  (v = Vercel /\ badgeFilesList st1 = []) \/
  fiveMinutes < nowCheck w' - nowScanned w.
Proof.
  intros Hok st1. rewrite request_scans_iff, due_spec. unfold elapsed.
  destruct (discoverBadges_succeeds ToLower v w st Hok) as (d & _ & _ & Ht).
  subst st1. by rewrite Ht.
Qed.

End FurtherRequests.

(** ** The unused selection of the second program *)

Section FurtherSelectBadgeForSlot.

Context (Rand : Type) (NewRand : Z -> Rand) (Intn : Rand -> Z -> Z * Rand).

Local Abbreviation selectBadgeForSlot :=
  (selectBadgeForSlot Rand NewRand Intn).

(** X14: [selectBadgeForSlot] takes one badge out of the slice it is given.
    On the empty slice it returns the empty name and the slice.  On a
    non-empty slice, with [Intn] in range, it returns a name of the slice
    and the rest of the slice in its order: together they are the slice
    again, and the rest is one shorter. *)
Theorem selectBadgeForSlot_takes_one availableBadges baseSeed slot :
  IntnInRange Rand Intn ->
  selectBadgeForSlot [] baseSeed slot = Some ("", []) /\
  (availableBadges <> [] ->
   exists selected remaining,
     selectBadgeForSlot availableBadges baseSeed slot
     = Some (selected, remaining) /\
     availableBadges ≡ₚ selected :: remaining /\
     length remaining = (length availableBadges - 1)%nat /\
     remaining `sublist_of` availableBadges).
Proof.
  intros Hrange. split; [done|]. intros Hne.
  unfold selectBadgeForSlot.
  assert (0 < Go.len availableBadges) as Hlen
    by (unfold Go.len; destruct availableBadges; [done|simpl; lia]).
  case_decide; [lia|].
  set (idx := (Intn _ _).1).
  assert (0 <= idx < Go.len availableBadges) as Hidx by (by apply Hrange).
  destruct (index_is_Some availableBadges idx Hidx) as [selected Hsel].
  rewrite Hsel. simpl. eexists _, _. split; [reflexivity|].
  unfold Go.index in Hsel. case_decide; [|lia].
  replace (Z.to_nat (idx + 1)) with (S (Z.to_nat idx)) by lia.
  pose proof (take_drop_middle _ _ _ Hsel) as Hsplit.
  pose proof (lookup_lt_Some _ _ _ Hsel) as Hlt.
  split; [|split].
  - by rewrite <- Hsplit at 1; rewrite <- Permutation_middle.
  - rewrite length_app, length_take, length_drop. lia.
  - rewrite <- Hsplit at 3. apply sublist_app; [done|]. by apply sublist_cons.
Qed.

End FurtherSelectBadgeForSlot.

(** ** Start-up and the seed *)

Section FurtherStartup.

Context (ToLower : string -> string).
Context (Rand : Type) (NewRand : Z -> Rand).
Context (int31n Int63n : Rand -> Z -> Z * Rand).

Local Abbreviation badgeRequest :=
  (badgeRequest ToLower Rand NewRand int31n Int63n).

(** X15: a scan that fails at start-up does not stop the program and
    leaves the catalog empty and the time of the last scan at its zero
    value.  What the first badge request (from the epoch on) then does
    depends on the handler [main] has registered.  In the two programs of
    [main.go] the request scans again, and if that scan fails too it is
    answered 404 "No badges available".  In the serverless variant run as
    a program the request starts no scan and is answered 404 "No badges
    available", whatever the badge directory holds by then. *)
Theorem failed_startup_then_request v w0 e0 w query :
  firstError (badgesTree w0) = Some e0 ->
  0 <= nowCheck w ->
  let st0 := startup ToLower v w0 in
  let served := mainBadgeHandler ToLower Rand NewRand int31n Int63n v w query st0 in
  badgeFilesList st0 = [] /\
  lastDiscoveryTime st0 = zeroTime /\
  match v with
  | MainA | MainB =>
      discoveryRan st0 served.1 /\
      (firstError (badgesTree w) <> None ->
       served.2 = Go.HttpError 404 "No badges available")
  | Vercel =>
      ~ discoveryRan st0 served.1 /\
      served.2 = Go.HttpError 404 "No badges available"
  end.
Proof.
  intros He0 Hnow st0 served.
  destruct (discoverBadges_fails_keeps ToLower v w0 initialState e0 He0)
    as (Hlist & Htime & _).
  fold (startup ToLower v w0) in Hlist, Htime. fold st0 in Hlist, Htime.
  simpl in Hlist, Htime.
  split; [done|]. split; [done|].
  assert (v <> Vercel ->
          discoveryRan st0 (badgeRequest v w query st0).1 /\
          (firstError (badgesTree w) <> None ->
           (badgeRequest v w query st0).2
           = Go.HttpError 404 "No badges available")) as Hmain.
  { intros Hv.
    assert (stale w st0 = true) as Hstale.
    { apply stale_spec. unfold elapsed. rewrite Htime.
      unfold fiveMinutes, zeroTime. lia. }
    assert (match v with
            | MainA | MainB => stale w st0
            | Vercel => shouldDiscover w st0
            end = true) as Hdue by (by destruct v).
    split; [by apply request_scans_iff|].
    intros Hfail. destruct (firstError (badgesTree w)) as [e|] eqn:He; [|done].
    rewrite badgeRequest_reply, refresh_unfold, Hdue.
    destruct (discoverBadges_fails_keeps ToLower v w st0 e He) as (-> & _ & _).
    by rewrite Hlist, selectBadge_variants. }
  destruct v; [by apply Hmain..|]. subst served. simpl. split.
  - destruct (badgeHandlerInternal_logs ToLower Rand NewRand int31n Int63n
                w query st0) as (tail & Hlog & Hhead).
    unfold discoveryRan. rewrite Hlog. by apply no_scan_in_tail.
  - unfold badgeHandlerInternal. by rewrite Hlist.
Qed.

End FurtherStartup.

(** X16: from the epoch on the seed never goes back as time passes, and it
    grows by exactly one every [timeWindowSeconds] seconds. *)
Theorem seed_advances t t' :
  0 <= t <= t' -> t' + timeWindowSeconds <= Go.maxInt ->
  baseSeedAt t <= baseSeedAt t' /\
  baseSeedAt (t + timeWindowSeconds) = baseSeedAt t + 1.
Proof.
  intros Ht Hmax. unfold timeWindowSeconds in *.
  assert (forall u, 0 <= u <= Go.maxInt -> baseSeedAt u = u `div` 2) as Hseed.
  { intros u Hu. unfold baseSeedAt, Go.quo, timeWindowSeconds.
    rewrite Z.quot_div_nonneg by lia.
    apply wrap_id. unfold Go.minInt, Go.maxInt in *.
    pose proof (Z.div_pos u 2). pose proof (Z.div_le_upper_bound u 2 u). lia. }
  rewrite !Hseed by lia. split.
  - apply Z.div_le_mono; lia.
  - replace (t + 2) with (t + 1 * 2) by lia. rewrite Z.div_add by lia. lia.
Qed.

(** ** The further properties on concrete inputs *)

Lemma sample_Intn_in_range : IntnInRange Sample.Rand Sample.intn.
Proof. intros r n Hn. by apply sample_draws_in_range. Qed.

(** X2 at three indices. *)
Lemma shuffled_indices_permutation_witness :
  exists tempIndices,
    Shuffle Sample.Rand Sample.intn Sample.intn (Sample.NewRand 0)
            (identityIndices 3) = Some tempIndices /\
    NoDup tempIndices.
Proof.
  destruct (shuffled_indices_permutation Sample.Rand Sample.NewRand Sample.intn
              Sample.intn 0 3 sample_draws_in_range)
    as (t & Ht & _ & _ & Hnd & _).
  by exists t.
Defined.

(** X3 at the example of the specification: three badges, slots 1 and 4. *)
Lemma congruent_slots_agree_witness :
  Sample.selectBadge MainA Sample.threeBadges 0 1
  = Sample.selectBadge MainA Sample.threeBadges 0 4.
Proof.
  apply (congruent_slots_agree Sample.Rand Sample.NewRand Sample.intn
           Sample.intn MainA Sample.threeBadges 0 1 4);
    by vm_compute.
Defined.

(** X4 at a fresh empty catalog. *)
Lemma empty_catalog_reply_witness :
  (Sample.badgeRequest MainB (Sample.world Sample.emptyTree 1 2 10) (Some "2")
                       (Sample.scannedAt 0 [])).2
  = Go.HttpError 404 "No badges available".
Proof.
  apply (empty_catalog_reply Sample.ToLower Sample.Rand Sample.NewRand
           Sample.intn Sample.intn MainB (Sample.world Sample.emptyTree 1 2 10)
           (Some "2") (Sample.scannedAt 0 [])).
  reflexivity.
Defined.

(** X5 at the catalog of the specification's example. *)
Lemma badge_request_serves_catalog_file_witness :
  exists file,
    file ∈ Sample.threeBadges /\
    (Sample.badgeRequest MainA (Sample.world Sample.flatTree 1 2 10) (Some "2")
                         (Sample.scannedAt 0 Sample.threeBadges)).2
    = servedReply Sample.ToLower MainA (Sample.world Sample.flatTree 1 2 10) file.
Proof.
  apply (badge_request_serves_catalog_file Sample.ToLower Sample.Rand
           Sample.NewRand Sample.intn Sample.intn MainA
           (Sample.world Sample.flatTree 1 2 10) (Some "2")
           (Sample.scannedAt 0 Sample.threeBadges) sample_draws_in_range).
  discriminate.
Defined.

(** X6 at the same request. *)
Lemma served_file_is_in_catalog_witness :
  exists file,
    file ∈ Sample.threeBadges /\
    "badges/b.png" = Go.Join badgesDir file.
Proof.
  destruct (served_file_is_in_catalog Sample.ToLower Sample.Rand
              Sample.NewRand Sample.intn Sample.intn MainA
              (Sample.world Sample.flatTree 1 2 10) (Some "2")
              (Sample.scannedAt 0 Sample.threeBadges)
              (header Sample.ToLower "b.png") "badges/b.png" eq_refl)
    as (file & Hin & Hpath & _).
  by exists file.
Defined.

(** X7 from the state before the first scan, over two requests. *)
Lemma requests_keep_catalog_ok_witness :
  CatalogOk Sample.ToLower
    (run (Sample.badgeRequest Vercel)
         [(Sample.world Sample.nestedTree 1 2 10, Some "1");
          (Sample.world Sample.unreadableTree 3 4 12, None)]
         initialState).
Proof.
  apply (requests_keep_catalog_ok Sample.ToLower Sample.Rand Sample.NewRand
           Sample.intn Sample.intn Vercel).
  split; constructor.
Defined.

(** X8 at a badge directory with a subdirectory. *)
Lemma successful_scan_catalog_witness :
  lastDiscoveryTime
    (Sample.discoverBadges MainA (Sample.world Sample.nestedTree 1 2 10)
                           (Sample.scannedAt 0 Sample.threeBadges))
  = 2.
Proof.
  destruct (successful_scan_catalog Sample.ToLower MainA
              (Sample.world Sample.nestedTree 1 2 10)
              (Sample.scannedAt 0 Sample.threeBadges) eq_refl)
    as (d & _ & _ & _ & _ & Htime).
  exact Htime.
Defined.

(** X9 at a badge directory of three badges and a text file. *)
Lemma discoverBadges_flat_directory_witness :
  Sorted Go.le
    (badgeFilesList
       (Sample.discoverBadges MainA (Sample.world Sample.flatTree 1 2 10)
                              initialState)).
Proof.
  destruct (discoverBadges_flat_directory Sample.ToLower MainA
              (Sample.world Sample.flatTree 1 2 10) initialState
              "badges" _ eq_refl ltac:(by repeat constructor))
    as (Hsorted & _).
  exact Hsorted.
Defined.

(** X10: the badge "bb.gif" is added between "b.png" and "c.GIF". *)
Lemma scan_after_adding_a_badge_witness :
  badgeFilesList
    (Sample.discoverBadges MainA (Sample.world Sample.grownTree 6 7 20)
                           initialState)
  ≡ₚ "bb.gif"
     :: badgeFilesList
          (Sample.discoverBadges MainA (Sample.world Sample.flatTree 1 2 10)
                                 initialState).
Proof.
  destruct (scan_after_adding_a_badge Sample.ToLower MainA
              (Sample.world Sample.flatTree 1 2 10)
              (Sample.world Sample.grownTree 6 7 20)
              initialState initialState "badges"
              [Go.File "a.gif"; Go.File "b.png"]
              [Go.File "c.GIF"; Go.File "notes.txt"] "bb.gif"
              ltac:(by repeat constructor) eq_refl eq_refl eq_refl)
    as (Hperm & _).
  exact Hperm.
Defined.

(** X11 one second after the epoch. *)
Lemma first_request_scans_witness :
  discoveryRan initialState
    (Sample.badgeRequest MainA (Sample.world Sample.flatTree 1000000000 2 1)
                         None initialState).1.
Proof.
  apply (first_request_scans Sample.ToLower Sample.Rand Sample.NewRand
           Sample.intn Sample.intn MainA
           (Sample.world Sample.flatTree 1000000000 2 1) None).
  by vm_compute.
Defined.

(** X12: a stale catalog, a badge directory with an unreadable subdirectory
    and a second request one second after the first. *)
Lemma failed_scan_is_retried_witness :
  discoveryRan
    (Sample.badgeRequest MainA
       (Sample.world Sample.unreadableTree 1000000000000 2 1000) None
       (Sample.scannedAt 0 Sample.threeBadges)).1
    (Sample.badgeRequest MainA
       (Sample.world Sample.unreadableTree 1001000000000 2 1001) None
       (Sample.badgeRequest MainA
          (Sample.world Sample.unreadableTree 1000000000000 2 1000) None
          (Sample.scannedAt 0 Sample.threeBadges)).1).1.
Proof.
  destruct (failed_scan_is_retried Sample.ToLower Sample.Rand Sample.NewRand
              Sample.intn Sample.intn MainA
              (Sample.world Sample.unreadableTree 1000000000000 2 1000) None
              (Sample.scannedAt 0 Sample.threeBadges) Go.ErrPermission
              (Sample.world Sample.unreadableTree 1001000000000 2 1001) None
              ltac:(eexists; vm_compute; reflexivity) eq_refl
              ltac:(by vm_compute))
    as (_ & _ & Hran).
  exact Hran.
Defined.

(** X13: a scan that ends at second 2 and a request at second 100. *)
Lemma scan_interval_after_success_witness :
  discoveryRan
    (Sample.discoverBadges MainA
       (Sample.world Sample.flatTree 1000000000 2000000000 1) initialState)
    (Sample.badgeRequest MainA
       (Sample.world Sample.flatTree 100000000000 100000000001 100) None
       (Sample.discoverBadges MainA
          (Sample.world Sample.flatTree 1000000000 2000000000 1)
          initialState)).1 <->
  (MainA = Vercel /\
   badgeFilesList
     (Sample.discoverBadges MainA
        (Sample.world Sample.flatTree 1000000000 2000000000 1) initialState)
   = []) \/
  fiveMinutes < 100000000000 - 2000000000.
Proof.
  apply (scan_interval_after_success Sample.ToLower Sample.Rand Sample.NewRand
           Sample.intn Sample.intn MainA
           (Sample.world Sample.flatTree 1000000000 2000000000 1) initialState
           (Sample.world Sample.flatTree 100000000000 100000000001 100) None).
  reflexivity.
Defined.

(** X14 at the catalog of the specification's example. *)
Lemma selectBadgeForSlot_takes_one_witness :
  exists selected remaining,
    Sample.selectBadgeForSlot Sample.threeBadges 5 2 = Some (selected, remaining) /\
    Sample.threeBadges ≡ₚ selected :: remaining.
Proof.
  destruct (selectBadgeForSlot_takes_one Sample.Rand Sample.NewRand Sample.intn
              Sample.threeBadges 5 2 sample_Intn_in_range)
    as (_ & Hpick).
  destruct (Hpick ltac:(discriminate)) as (selected & remaining & Hsel & Hperm & _).
  by exists selected, remaining.
Defined.

(** X15 in the serverless variant run as a program: the badge directory
    cannot be read at start-up and holds three badges at the request. *)
Lemma failed_startup_then_request_witness :
  badgeFilesList
    (Sample.startup Vercel (Sample.world Sample.unreadableTree 0 1 0)) = [] /\
  (mainBadgeHandler Sample.ToLower Sample.Rand Sample.NewRand Sample.intn
     Sample.intn Vercel (Sample.world Sample.flatTree 5 6 2) None
     (Sample.startup Vercel (Sample.world Sample.unreadableTree 0 1 0))).2
  = Go.HttpError 404 "No badges available".
Proof.
  destruct (failed_startup_then_request Sample.ToLower Sample.Rand
              Sample.NewRand Sample.intn Sample.intn Vercel
              (Sample.world Sample.unreadableTree 0 1 0) Go.ErrPermission
              (Sample.world Sample.flatTree 5 6 2) None
              eq_refl ltac:(by vm_compute))
    as (Hlist & _ & _ & Hreply).
  split; [exact Hlist|exact Hreply].
Defined.

(** X16 at the seconds 10 and 13. *)
Lemma seed_advances_witness :
  baseSeedAt 10 <= baseSeedAt 13 /\ baseSeedAt 12 = baseSeedAt 10 + 1.
Proof.
  apply (seed_advances 10 13); by vm_compute.
Defined.
